(** * Async Gamma API client: a shallow embedding of
      [src/agents/polymarket/gamma_async.py]

    The client fetches paginated collections (markets, events) from the
    Gamma HTTP API.  The embedding follows the Python source function by
    function:

    - decoded JSON is the inductive [json]; a [dict] is a [gmap string json];
    - every [async def] is a computation in the monad [M], which threads the
      state the methods touch ([self._session], the GET requests issued so
      far, the files written) and carries raised exceptions;
    - the pydantic model classes of [agents.agents.utils.objects], and the
      HTTP server, the file system and [json.loads], are collaborators of
      the module: the classes [Models] and [Platform] are their interfaces;
    - [asyncio.gather] starts its coroutines in the order they are passed
      and lets them complete in an arbitrary order, which is made explicit
      by a latency assigned to every task.

    [print] calls are not modelled: nothing the functions return or raise
    depends on them. *)

From Stdlib Require Import Ascii.
From stdpp Require Import gmap strings list pretty sorting.

Local Open Scope string_scope.
Local Open Scope list_scope.
Local Open Scope Z_scope.

(** ** Decoded JSON *)

(** The values [resp.json()] and [json.loads] produce.  A Python [float] is
    kept as its IEEE-754 binary64 bit pattern; no function of the module
    computes with it.  A [str] is kept as the UTF-8 encoding of its text. *)
#[warnings="-register-all"]
Inductive json : Type :=
| JNull
| JBool (b : bool)
| JInt (n : Z)
| JFloat (bits : Z)
| JStr (s : string)
| JList (l : list json)
| JDict (d : gmap string json).

(** One raw record of a collection: a JSON object ([Dict] in the source's
    annotations). *)
Abbreviation record := (gmap string json).

(** Query-string parameters: the dict literal passed as [params=], in the
    order it is written. *)
Abbreviation querystring := (list (string * json)).

(** ** Exceptions *)

(** [Exception] is what the module raises itself (lines 131, 155, 178, 201);
    the other constructors are subclasses of [Exception] raised by the
    interpreter or by a collaborator. *)
Inductive exn : Type :=
| Exception (msg : string)
| ImportError (msg : string)
| TypeError (msg : string)
| ClientError (msg : string)       (* aiohttp: the GET did not complete *)
| DecodeError (msg : string)       (* resp.json() / json.loads *)
| ValidationError (msg : string)   (* a pydantic constructor rejected its arguments *)
| OSError (msg : string).          (* open(path, "w+") *)

Inductive result (A : Type) : Type :=
| Ok (a : A)
| Raise (e : exn).
Arguments Ok {A} a.
Arguments Raise {A} e.

Global Instance result_ret : MRet result := λ A a, Ok a.
Global Instance result_bind : MBind result := λ A B f r,
  match r with
  | Ok a => f a
  | Raise e => Raise e
  end.

Definition is_Ok {A} (r : result A) : bool :=
  match r with Ok _ => true | Raise _ => false end.

(** [from_sum mk s]: the outcome of a collaborator call, which either
    fails with a message (turned into the exception [mk msg]) or returns. *)
Definition from_sum {A} (mk : string → exn) (s : string + A) : result A :=
  match s with
  | inl msg => Raise (mk msg)
  | inr a => Ok a
  end.

(** [try: ... except Exception: return None] *)
Definition except_None {A} (body : result A) : option A :=
  match body with
  | Ok a => Some a
  | Raise _ => None
  end.

(** ** Client state and the monad of the async methods *)

Record ClientSession : Type := { closed : bool }.

Record request : Type := Request { url : string; params : querystring }.

(** What one HTTP GET comes back with: [session.get] raises, or there is a
    response with a status and a body that [resp.json()] decodes (to a JSON
    array of records, as the API returns and the annotations say) or fails
    to decode. *)
Inductive http_reply : Type :=
| NoReply (err : string)
| Reply (status : Z) (body : string + list record).

Record world : Type := World {
  _session : option ClientSession;       (* self._session *)
  sent : list request;                   (* GET requests issued, oldest first *)
  files : gmap string (list record);     (* path -> JSON dumped into it *)
}.

Definition M (A : Type) : Type := world → result A * world.

Global Instance M_ret : MRet M := λ A a w, (Ok a, w).
Global Instance M_bind : MBind M := λ A B f m w,
  match m w with
  | (Ok a, w') => f a w'
  | (Raise e, w') => (Raise e, w')
  end.

Definition initial_world : world := World None [] ∅.

(** The world once a GET has gone out: the session is open (it was, or
    [_get_session] has opened one) and the request is on record. *)
Definition issued (r : request) (w : world) : world :=
  World (Some {| closed := false |}) (sent w ++ [r]) (files w).

(** The outcome of a computation on a freshly constructed client. *)
Definition outcome {A} (m : M A) : result A := (m initial_world).1.

Definition raise {A} (e : exn) : M A := λ w, (Raise e, w).
Definition lift {A} (r : result A) : M A := λ w, (r, w).
Definition get_session_attr : M (option ClientSession) := λ w, (Ok (_session w), w).
Definition set_session_attr (s : ClientSession) : M unit := λ w,
  (Ok (), World (Some s) (sent w) (files w)).
Definition log_request (r : request) : M unit := λ w,
  (Ok (), World (_session w) (sent w ++ [r]) (files w)).
Definition write_file (path : string) (data : list record) : M unit := λ w,
  (Ok (), World (_session w) (sent w) (<[path := data]> (files w))).

(** ** Python built-ins the module uses *)

(** The characters of a [str], one string each: in the UTF-8 encoding a
    character is a leading byte and the continuation bytes (those of the
    form 10xxxxxx) that follow it. *)
Definition is_continuation (c : ascii) : bool :=
  (128 <=? nat_of_ascii c)%nat && (nat_of_ascii c <? 192)%nat.

Fixpoint py_chars (s : string) : list string :=
  match s with
  | EmptyString => []
  | String c s' =>
      match py_chars s' with
      | String c' item :: items =>
          if is_continuation c' then String c (String c' item) :: items
          else String c EmptyString :: String c' item :: items
      | items => String c EmptyString :: items
      end
  end.

(** [for x in v]: the items a decoded JSON value yields when iterated. *)
Definition py_iter (v : json) : result (list json) :=
  match v with
  | JList l => Ok l
  | JStr s => Ok (JStr <$> py_chars s)
  | JDict d => Ok (JStr <$> (map_to_list d).*1)
  | _ => Raise (TypeError "object is not iterable")
  end.

(** Keyword unpacking, a call with [**v]: the mapping a value unpacks to. *)
Definition py_kwargs (v : json) : result record :=
  match v with
  | JDict d => Ok d
  | _ => Raise (TypeError "argument after ** must be a mapping")
  end.

(** [range(a, b)] *)
Definition py_range (a b : Z) : list Z :=
  (λ i : nat, a + Z.of_nat i) <$> seq 0 (Z.to_nat (b - a)).

(** [for x in xs: ys.append(f(x))], where [f] may raise. *)
Fixpoint for_append {A B} (f : A → result B) (xs : list A) (ys : list B)
  : result (list B) :=
  match xs with
  | [] => Ok ys
  | x :: xs => y ← f x; for_append f xs (ys ++ [y])
  end.

(** [if x:] for a value that is either [None] or a model object. *)
Definition py_bool {T} (truthy : T → bool) (x : option T) : bool :=
  match x with
  | Some o => truthy o
  | None => false
  end.

(** An element of a list the client returns: a raw record, or what a
    [parse_pydantic_*] method returned for one (a model object or [None]). *)
Inductive element (T : Type) : Type :=
| Raw (d : record)
| Parsed (o : option T).
Arguments Raw {T} d.
Arguments Parsed {T} o.

Definition dquote : string := String "034"%char EmptyString.

(** ** [asyncio.gather] with [return_exceptions=True] *)

(** A coroutine of the client, as the event loop drives it.  Started, it
    runs up to its [await] of the response: the request has gone out, and
    what is left of the coroutine is handed back; or it raises before.
    Resumed once the response is there, what is left runs to the end. *)
Definition coroutine (A : Type) : Type := M (M A).

(** [await c]: the caller runs the coroutine to its end. *)
Definition await {A} (c : coroutine A) : M A := rest ← c; rest.

(** [asyncio.gather] starts the coroutines in the order they are passed, so
    the requests go out in that order.  The responses arrive in an order the
    caller does not control: task [i] completes after [latency i], and tasks
    of equal latency in an order of the scheduler's choosing.  Each outcome,
    a returned value or the exception raised, goes to the slot of its task,
    and the slots are handed back in the order of the tasks. *)
Definition sooner (latency : nat → nat) (i j : nat) : Prop :=
  (latency i ≤ latency j)%nat.
Global Instance sooner_dec latency i j : Decision (sooner latency i j) :=
  decide (latency i ≤ latency j)%nat.

Definition completion_order (latency : nat → nat) (n : nat) : list nat :=
  merge_sort (sooner latency) (seq 0 n).

Section Gather.
Context {A : Type}.

(** Every task is started, in the order of the tasks: it is then waiting
    for its response, or has raised already. *)
Fixpoint start_tasks (tasks : list (coroutine A)) (w : world)
  : list (result (M A)) * world :=
  match tasks with
  | [] => ([], w)
  | task :: tasks =>
      let '(started, w') := task w in
      let '(rest, w'') := start_tasks tasks w' in
      (started :: rest, w'')
  end.

(** The tasks complete in the order [order]; a task that has raised when
    started has nothing left to run. *)
Fixpoint complete_tasks (started : list (result (M A))) (order : list nat)
    (slots : gmap nat (result A)) (w : world) : gmap nat (result A) * world :=
  match order with
  | [] => (slots, w)
  | i :: order =>
      match started !! i with
      | Some (Ok rest) =>
          let '(r, w') := rest w in
          complete_tasks started order (<[i := r]> slots) w'
      | Some (Raise e) => complete_tasks started order (<[i := Raise e]> slots) w
      | None => complete_tasks started order slots w
      end
  end.

Definition gather (latency : nat → nat) (tasks : list (coroutine A))
  : M (list (result A)) := λ w,
  let '(started, w1) := start_tasks tasks w in
  let '(slots, w2) :=
    complete_tasks started (completion_order latency (length tasks)) ∅ w1 in
  (Ok (omap (λ i, slots !! i) (seq 0 (length tasks))), w2).

(** [resolves st o]: a started task completes with the outcome [o],
    whatever the state it is resumed in. *)
Definition resolves (st : result (M A)) (o : result A) : Prop :=
  match st with
  | Ok rest => ∀ w, (rest w).1 = o
  | Raise e => o = Raise e
  end.

(** [rest_keeps proj st]: completing a started task leaves the part [proj]
    of the state as it was. *)
Definition rest_keeps {X} (proj : world → X) (st : result (M A)) : Prop :=
  match st with
  | Ok rest => ∀ w, proj (rest w).2 = proj w
  | Raise _ => True
  end.

(** [co_returns c o]: whatever the states, the coroutine [c] completes with
    [o]. *)
Definition co_returns (c : coroutine A) (o : result A) : Prop :=
  ∀ w, resolves (c w).1 o.

(** [co_sends c r]: whatever the states, the coroutine [c] issues the
    request [r] when it is started, and no request after that. *)
Definition co_sends (c : coroutine A) (r : request) : Prop :=
  ∀ w, sent (c w).2 = sent w ++ [r] ∧ rest_keeps sent (c w).1.

(** [co_keeps proj c]: the coroutine [c] never changes the part [proj] of
    the state. *)
Definition co_keeps {X} (proj : world → X) (c : coroutine A) : Prop :=
  ∀ w, proj (c w).2 = proj w ∧ rest_keeps proj (c w).1.

(** [returns t o]: whatever the state, task [t] comes back with [o]. *)
Definition returns (t : M A) (o : result A) : Prop := ∀ w, (t w).1 = o.

(** [issues t w r]: run in state [w], [t] issues the request [r] and no
    other. *)
Definition issues (t : M A) (w : world) (r : request) : Prop :=
  sent (t w).2 = sent w ++ [r].
End Gather.

(** ** Collaborators *)

(** A value of the dict unpacked into the [PolymarketEvent] or [Market]
    constructor: decoded JSON, or one of the lists the parse methods put in
    its place. *)
Inductive field (ClobReward Tag PolymarketEvent : Type) : Type :=
| FJson (v : json)
| FClobRewards (l : list ClobReward)
| FEvents (l : list (option PolymarketEvent))
| FTags (l : list Tag).
Arguments FJson {_ _ _} v.
Arguments FClobRewards {_ _ _} l.
Arguments FEvents {_ _ _} l.
Arguments FTags {_ _ _} l.

(** The pydantic models imported from [agents.agents.utils.objects].  A
    constructor called on keyword arguments returns an object or raises;
    whether an object is truthy is up to its class. *)
Class Models : Type := {
  ClobReward : Type;
  Tag : Type;
  PolymarketEvent : Type;
  Market : Type;
  new_ClobReward : record → string + ClobReward;
  new_Tag : record → string + Tag;
  new_PolymarketEvent :
    gmap string (field ClobReward Tag PolymarketEvent) → string + PolymarketEvent;
  new_Market :
    gmap string (field ClobReward Tag PolymarketEvent) → string + Market;
  truthy_PolymarketEvent : PolymarketEvent → bool;
  truthy_Market : Market → bool;
}.

(** What the module runs on. *)
Class Platform : Type := {
  (** whether [import aiohttp] succeeded when the module was loaded *)
  HAS_AIOHTTP : bool;
  (** the server behind [session.get(url, params=...)] *)
  http_get : string → querystring → http_reply;
  (** [open(path, "w+")]: [Some err] when it raises [OSError] *)
  open_w : string → option string;
  (** [json.loads] on a [str] *)
  json_loads : string → string + json;
}.

Section Client.
Context {models : Models} {platform : Platform}.

Abbreviation kwargs := (gmap string (field ClobReward Tag PolymarketEvent)).

(** *** [__init__] *)

Definition gamma_url : string := "https://gamma-api.polymarket.com".
Definition gamma_markets_endpoint : string := gamma_url +:+ "/markets".
Definition gamma_events_endpoint : string := gamma_url +:+ "/events".

(** *** [_get_session], [close] *)

Definition new_session : M ClientSession :=
  set_session_attr {| closed := false |};;
  mret {| closed := false |}.

Definition _get_session : M ClientSession :=
  if negb HAS_AIOHTTP then
    raise (ImportError "aiohttp is required. Install with: pip install aiohttp")
  else
    s ← get_session_attr;
    match s with
    | None => new_session
    | Some s => if closed s then new_session else mret s
    end.

Definition close : M unit :=
  s ← get_session_attr;
  match s with
  | Some s => if negb (closed s) then set_session_attr {| closed := true |}
              else mret ()
  | None => mret ()
  end.

(** [async with session.get(url, params=params) as resp]: the request goes
    out, and the response (status and body) comes back or the call
    raises. *)
Definition session_get (url : string) (params : querystring)
  : M (Z * (string + list record)) :=
  log_request (Request url params);;
  match http_get url params with
  | NoReply err => raise (ClientError err)
  | Reply status body => mret (status, body)
  end.

(** The second half of [session.get]: the response to a request that has
    gone out is there, or the call raises. *)
Definition response (url : string) (params : querystring)
  : M (Z * (string + list record)) :=
  match http_get url params with
  | NoReply err => raise (ClientError err)
  | Reply status body => mret (status, body)
  end.

(** [with open(path, "w+") as out_file: json.dump(data, out_file)] *)
Definition dump_to_file (path : string) (data : list record) : M unit :=
  match open_w path with
  | Some err => raise (OSError err)
  | None => write_file path data
  end.

(** *** The parse methods *)

(** [json.loads(v)]: [v] has to be a [str]. *)
Definition py_json_loads (v : json) : result json :=
  match v with
  | JStr s => from_sum DecodeError (json_loads s)
  | _ => Raise (TypeError "the JSON object must be str, bytes or bytearray")
  end.

(** Lines 83-95.  The argument is an item of a market's ["events"] list;
    on an item that is not a JSON object every path through the [try]
    block raises a [TypeError] (at the [in] test, at the subscript or at
    the [**] unpacking), so [None] is returned. *)
Definition parse_nested_event (event_object : json) : option PolymarketEvent :=
  except_None (
    match event_object with
    | JDict d =>
        let kw : kwargs := FJson <$> d in
        kw ← match d !! "tags" with
             | Some v =>
                 items ← py_iter v;
                 tags ← for_append
                          (λ tag, a ← py_kwargs tag;
                                  from_sum ValidationError (new_Tag a))
                          items [];
                 mret (<["tags" := FTags tags]> kw)
             | None => mret kw
             end;
        from_sum ValidationError (new_PolymarketEvent kw)
    | _ => Raise (TypeError "not a mapping")
    end).

(** Lines 97-108. *)
Definition parse_pydantic_event (event_object : record) : option PolymarketEvent :=
  except_None (
    let kw : kwargs := FJson <$> event_object in
    kw ← match event_object !! "tags" with
         | Some v =>
             items ← py_iter v;
             tags ← for_append
                      (λ tag, a ← py_kwargs tag;
                              from_sum ValidationError (new_Tag a))
                      items [];
             mret (<["tags" := FTags tags]> kw)
         | None => mret kw
         end;
    from_sum ValidationError (new_PolymarketEvent kw)).

(** Lines 52-81.  The method overwrites four keys of [market_object] in
    place; [kw] is the dict as it stands after each [if].  The keys are
    distinct, so every value the method reads is still the decoded JSON of
    [market_object]. *)
Definition parse_pydantic_market (market_object : record) : option Market :=
  except_None (
    let kw : kwargs := FJson <$> market_object in
    kw ← match market_object !! "clobRewards" with
         | Some v =>
             items ← py_iter v;
             clob_rewards ← for_append
                              (λ o, a ← py_kwargs o;
                                    from_sum ValidationError (new_ClobReward a))
                              items [];
             mret (<["clobRewards" := FClobRewards clob_rewards]> kw)
         | None => mret kw
         end;
    kw ← match market_object !! "events" with
         | Some v =>
             items ← py_iter v;
             events ← for_append (λ e, Ok (parse_nested_event e)) items [];
             mret (<["events" := FEvents events]> kw)
         | None => mret kw
         end;
    kw ← match market_object !! "outcomePrices" with
         | Some v => j ← py_json_loads v; mret (<["outcomePrices" := FJson j]> kw)
         | None => mret kw
         end;
    kw ← match market_object !! "clobTokenIds" with
         | Some v => j ← py_json_loads v; mret (<["clobTokenIds" := FJson j]> kw)
         | None => mret kw
         end;
    from_sum ValidationError (new_Market kw)).

(** *** [get_markets], [get_events] *)

Definition exclusive_modes_msg : string :=
  "Cannot use " +:+ dquote +:+ "parse_pydantic" +:+ dquote +:+ " and "
    +:+ dquote +:+ "local_file" +:+ dquote +:+ " params simultaneously.".

Definition api_error_msg (status : Z) : string :=
  "Gamma API error: HTTP " +:+ pretty status.

(** Lines 110-155.  The result is [None] (nothing is returned after the
    dump to a file) or a list. *)
Definition get_markets (querystring_params : option querystring)
    (parse_pydantic : bool) (local_file_path : option string)
  : M (option (list (element Market))) :=
  let querystring_params := default [] querystring_params in
  if parse_pydantic && bool_decide (local_file_path ≠ None) then
    raise (Exception exclusive_modes_msg)
  else
    session ← _get_session;
    '(status, body) ← session_get gamma_markets_endpoint querystring_params;
    if status =? 200 then
      data ← lift (from_sum DecodeError body);
      match local_file_path with
      | Some path => dump_to_file path data;; mret None
      | None =>
          if negb parse_pydantic then mret (Some (Raw <$> data))
          else
            let markets :=
              foldl (λ markets market_object,
                       let parsed := parse_pydantic_market market_object in
                       if py_bool truthy_Market parsed
                       then markets ++ [parsed] else markets)
                    [] data in
            mret (Some (Parsed <$> markets))
      end
    else
      raise (Exception (api_error_msg status)).

(** Lines 110-155 again: [get_markets] as the coroutine a call creates
    without awaiting it, which is what lines 265-274 hand to
    [asyncio.gather].  The body is the one above, cut where [session.get]
    waits for the response; awaited on the spot the coroutine is
    [get_markets] ([get_markets_co_await] below). *)
Definition get_markets_co (querystring_params : option querystring)
    (parse_pydantic : bool) (local_file_path : option string)
  : coroutine (option (list (element Market))) :=
  let querystring_params := default [] querystring_params in
  if parse_pydantic && bool_decide (local_file_path ≠ None) then
    raise (Exception exclusive_modes_msg)
  else
    session ← _get_session;
    log_request (Request gamma_markets_endpoint querystring_params);;
    mret (
      '(status, body) ← response gamma_markets_endpoint querystring_params;
      if status =? 200 then
        data ← lift (from_sum DecodeError body);
        match local_file_path with
        | Some path => dump_to_file path data;; mret None
        | None =>
            if negb parse_pydantic then mret (Some (Raw <$> data))
            else
              let markets :=
                foldl (λ markets market_object,
                         let parsed := parse_pydantic_market market_object in
                         if py_bool truthy_Market parsed
                         then markets ++ [parsed] else markets)
                      [] data in
              mret (Some (Parsed <$> markets))
        end
      else
        raise (Exception (api_error_msg status))).

(** Lines 157-201. *)
Definition get_events (querystring_params : option querystring)
    (parse_pydantic : bool) (local_file_path : option string)
  : M (option (list (element PolymarketEvent))) :=
  let querystring_params := default [] querystring_params in
  if parse_pydantic && bool_decide (local_file_path ≠ None) then
    raise (Exception exclusive_modes_msg)
  else
    session ← _get_session;
    '(status, body) ← session_get gamma_events_endpoint querystring_params;
    if status =? 200 then
      data ← lift (from_sum DecodeError body);
      match local_file_path with
      | Some path => dump_to_file path data;; mret None
      | None =>
          if negb parse_pydantic then mret (Some (Raw <$> data))
          else
            let events :=
              foldl (λ events market_event_obj,
                       let parsed := parse_pydantic_event market_event_obj in
                       if py_bool truthy_PolymarketEvent parsed
                       then events ++ [parsed] else events)
                    [] data in
            mret (Some (Parsed <$> events))
      end
    else
      raise (Exception (api_error_msg status)).

(** *** [get_all_current_markets] *)

(** The dict literal of lines 244-250 and 266-272. *)
Definition page_params (limit offset : Z) : querystring :=
  [("active", JBool true); ("closed", JBool false); ("archived", JBool false);
   ("limit", JInt limit); ("offset", JInt offset)].

(** Lines 261-274: the query strings of the tasks the [for] loop creates. *)
Definition page_requests (limit max_pages : Z) : list querystring :=
  let num_pages := Z.min max_pages 10 in
  (λ page, page_params limit (page * limit)) <$> py_range 1 num_pages.

(** Lines 280-288: the loop over the gathered results.  A result is an
    exception, or what [get_markets] returned; [elif result:] holds for a
    list that is not empty. *)
Fixpoint aggregate (limit : Z)
    (results : list (result (option (list (element Market)))))
    (all_markets : list (element Market)) : list (element Market) :=
  match results with
  | [] => all_markets
  | result :: results =>
      match result with
      | Raise _ => aggregate limit results all_markets
      | Ok None | Ok (Some []) => aggregate limit results all_markets
      | Ok (Some result) =>
          let all_markets := all_markets ++ result in
          if Z.of_nat (length result) <? limit then all_markets
          else aggregate limit results all_markets
      end
  end.

(** Lines 222-291.  Page 0 is awaited on the spot; the other pages are
    coroutines handed to [asyncio.gather], and [latency] is the order in
    which they complete. *)
Definition get_all_current_markets (limit max_pages : Z) (latency : nat → nat)
  : M (list (element Market)) :=
  first_page ← get_markets (Some (page_params limit 0)) false None;
  match first_page with
  | None => raise (TypeError "object of type 'NoneType' has no len()")
  | Some first_page =>
      if Z.of_nat (length first_page) =? 0 then mret first_page
      else
        let all_markets := first_page in
        if Z.of_nat (length first_page) =? limit then
          let tasks :=
            (λ qs, get_markets_co (Some qs) false None)
              <$> page_requests limit max_pages in
          match tasks with
          | [] => mret all_markets
          | _ :: _ =>
              results ← gather latency tasks;
              mret (aggregate limit results all_markets)
          end
        else mret all_markets
  end.

(** *** The convenience fetchers *)

(** Lines 203-205.  [limit] defaults to 2. *)
Definition get_all_markets (limit : Z) : M (option (list (element Market))) :=
  get_markets (Some [("limit", JInt limit)]) false None.

(** Lines 207-209.  [limit] defaults to 2. *)
Definition get_all_events (limit : Z) : M (option (list (element PolymarketEvent))) :=
  get_events (Some [("limit", JInt limit)]) false None.

(** Lines 211-220.  [limit] defaults to 4. *)
Definition get_current_markets (limit : Z) : M (option (list (element Market))) :=
  get_markets
    (Some [("active", JBool true); ("closed", JBool false);
           ("archived", JBool false); ("limit", JInt limit)])
    false None.

(** Lines 293-302.  [limit] defaults to 4. *)
Definition get_current_events (limit : Z)
  : M (option (list (element PolymarketEvent))) :=
  get_events
    (Some [("active", JBool true); ("closed", JBool false);
           ("archived", JBool false); ("limit", JInt limit)])
    false None.

(** Lines 304-314.  [limit] defaults to 2. *)
Definition get_clob_tradable_markets (limit : Z)
  : M (option (list (element Market))) :=
  get_markets
    (Some [("active", JBool true); ("closed", JBool false);
           ("archived", JBool false); ("limit", JInt limit);
           ("enableOrderBook", JBool true)])
    false None.

(** *** Vocabulary of the properties *)

(** What the fetch of one page of raw markets comes back with: the records
    returned or the exception raised.  It is the same in every state
    ([get_markets_returns] below). *)
Definition fetch (qs : querystring) : result (option (list (element Market))) :=
  outcome (get_markets (Some qs) false None).

(** Page [p] of a paginated fetch with page size [limit]. *)
Definition page (limit p : Z) : result (option (list (element Market))) :=
  fetch (page_params limit (p * limit)).

(** Whether the fan-out phase runs after a first page (lines 253, 259). *)
Definition fans_out (limit : Z) (first_page : list (element Market)) : bool :=
  negb (Z.of_nat (length first_page) =? 0)
  && (Z.of_nat (length first_page) =? limit).

(** [fetches_once m r]: [m] is a single raw fetch.  It issues the request
    [r] or leaves the client as it was, and when it returns it has issued
    [r], got a 200 response and returns the records of its body, all of
    them and in order. *)
Definition fetches_once {T} (m : M (option (list (element T)))) (r : request)
  : Prop :=
  ∀ w, ((m w).2 = w ∨ (m w).2 = issued r w)
       ∧ ∀ res, (m w).1 = Ok res →
                (m w).2 = issued r w
                ∧ ∃ data, http_get (url r) (params r) = Reply 200 (inr data)
                          ∧ res = Some (Raw <$> data).

(** The results [asyncio.gather] hands to the aggregation loop. *)
Definition gathered (limit max_pages : Z)
  : list (result (option (list (element Market)))) :=
  fetch <$> page_requests limit max_pages.



End Client.

(** ** [get_market] *)

(** What the GET of one document comes back with: [session.get] raises, or
    there is a response with a status and a body that [resp.json()] decodes
    (to whatever JSON value the body holds) or fails to decode. *)
Inductive document_reply : Type :=
| NoDocument (err : string)
| Document (status : Z) (body : string + json).

(** The server behind [session.get(url)] for the URL of one market, which
    answers with one JSON document and not with an array of records. *)
Class Documents : Type := {
  http_get_document : string → document_reply;
}.

Section SingleMarket.
Context {platform : Platform} {documents : Documents}.

(** Lines 316-322.  The status of the response is not looked at. *)
Definition get_market (market_id : string) : M json :=
  let url := gamma_markets_endpoint +:+ "/" +:+ market_id in
  session ← _get_session;
  log_request (Request url []);;
  match http_get_document url with
  | NoDocument err => raise (ClientError err)
  | Document status body => lift (from_sum DecodeError body)
  end.

End SingleMarket.

(** ** A concrete client, for running the methods *)

Module Demo.

(** A [Market] keeps the integer [id] of its record, and the constructor
    rejects a record that has none; the other models accept anything. *)
Definition models : Models := {|
  ClobReward := record;
  Tag := record;
  PolymarketEvent := unit;
  Market := Z;
  new_ClobReward := inr;
  new_Tag := inr;
  new_PolymarketEvent := λ _, inr ();
  new_Market := λ kw,
    match kw !! "id" with
    | Some (FJson (JInt n)) => inr n
    | _ => inl "id: field required"
    end;
  truthy_PolymarketEvent := λ _, true;
  truthy_Market := λ _, true;
|}.

Definition offset_of (qs : querystring) : Z :=
  match (list_to_map qs : gmap string json) !! "offset" with
  | Some (JInt n) => n
  | _ => 0
  end.

(** A server that answers the request for offset [p * limit] with the
    [p]-th reply of a script, and does not answer beyond the script. *)
Definition server (limit : Z) (script : list http_reply)
  : string → querystring → http_reply :=
  λ _ qs, default (NoReply "timeout") (script !! Z.to_nat (offset_of qs / limit)).

Definition platform (limit : Z) (script : list http_reply) : Platform := {|
  HAS_AIOHTTP := true;
  http_get := server limit script;
  open_w := λ _, None;
  json_loads := λ s, if decide (s = "[]") then inr (JList []) else inl "Expecting value";
|}.

Definition market (n : Z) : record := {[ "id" := JInt n ]}.

(** A 200 response whose body is the array of the markets [ids]. *)
Definition page (ids : list Z) : http_reply := Reply 200 (inr (market <$> ids)).

(** Completion in the order the tasks were created, and in the reverse
    order. *)
Definition fifo : nat → nat := λ i, i.
Definition lifo : nat → nat := λ i, (10 - i)%nat.

(** The markets [ids] as [get_markets] returns them raw. *)
Definition raw (ids : list Z) : list (element Z) := Raw <$> (market <$> ids).


(** Page size 2; pages 1 and 3 fail, page 4 is short. *)
Definition flaky : Platform :=
  platform 2 [page [0; 1]; Reply 500 (inl "Internal Server Error"); page [2; 3];
              NoReply "connection reset"; page [4]; page [5; 6]].

(** Page size 2; every page is full. *)
Definition plenty : Platform :=
  platform 2 ((λ i, page [2 * i; 2 * i + 1]) <$> [0; 1; 2; 3; 4; 5; 6; 7; 8; 9; 10; 11]).

(** Page size 0, and the server has nothing. *)
Definition nothing : Platform := platform 0 [page []].

(** The server is down for maintenance. *)
Definition down : Platform := platform 5 [Reply 404 (inl "Not Found")].

(** One page of three markets, the second without an [id]. *)
Definition mixed : Platform :=
  platform 5 [Reply 200 (inr [market 1; {[ "slug" := JStr "no-id" ]}; market 3])].

(** The page of [mixed], on a machine where no file can be opened for
    writing. *)
Definition readonly : Platform := {|
  HAS_AIOHTTP := true;
  http_get := server 5 [Reply 200 (inr [market 1; {[ "slug" := JStr "no-id" ]}; market 3])];
  open_w := λ _, Some "[Errno 13] Permission denied";
  json_loads := λ _, inl "Expecting value";
|}.


(** No aiohttp on this machine. *)
Definition offline : Platform := {|
  HAS_AIOHTTP := false;
  http_get := server 5 [page [1; 2; 3]];
  open_w := λ _, None;
  json_loads := λ _, inl "Expecting value";
|}.

(** A page size of -1, which the server does not mind. *)
Definition negative : Platform := platform (-1) [page [1; 2; 3]].

(** Every request is answered with the same full page of two markets. *)
Definition steady : Platform := {|
  HAS_AIOHTTP := true;
  http_get := λ _ _, page [7; 8];
  open_w := λ _, None;
  json_loads := λ _, inl "Expecting value";
|}.

(** Two servers that agree up to the short page 1 and not beyond. *)
Definition before : Platform := platform 2 [page [0; 1]; page [2]; page [3; 4]].
Definition after : Platform :=
  platform 2 [page [0; 1]; page [2]; page [9; 9]; page [8; 8]].

(** The single-market endpoint answers every request with a 404 and a JSON
    error document. *)
Definition documents : Documents := {|
  http_get_document := λ _, Document 404 (inr (JDict {[ "error" := JStr "not found" ]}));
|}.

(** A market whose prices are a list already, one with a reward that is not
    an object, and one with an event that is not an object. *)
Definition decoded_prices : record :=
  {[ "id" := JInt 1; "outcomePrices" := JList [JStr "0.5"; JStr "0.5"] ]}.
Definition odd_reward : record :=
  {[ "id" := JInt 2; "clobRewards" := JList [JDict ∅; JInt 7] ]}.
Definition odd_event : record :=
  {[ "id" := JInt 3; "events" := JList [JInt 7; JDict ∅] ]}.

End Demo.

(** * Properties *)

(** ** The monad *)

Lemma M_bind_run {A B} (m : M A) (f : A → M B) (w : world) :
  (m ≫= f) w =
    match m w with
    | (Ok a, w') => f a w'
    | (Raise e, w') => (Raise e, w')
    end.
Proof. reflexivity. Qed.

(** ** [asyncio.gather] *)

Lemma completion_order_Permutation latency n :
  completion_order latency n ≡ₚ seq 0 n.
Proof. apply merge_sort_Permutation. Qed.

Lemma omap_lookup_seq {B} (l : list B) :
  omap (λ i, l !! i) (seq 0 (length l)) = l.
Proof.
  induction l as [|x l IH] using rev_ind; [done|].
  rewrite length_app, Nat.add_comm. simpl length. cbn [Nat.add].
  rewrite seq_S, omap_app. simpl.
  rewrite lookup_app_r, Nat.sub_diag by done. simpl. f_equal.
  rewrite <- IH at 2.
  apply list_omap_ext, Forall_Forall2_diag, Forall_forall.
  intros i [_ Hi]%elem_of_seq. by apply lookup_app_l.
Qed.

Section GatherFacts.
Context {A : Type}.
Implicit Types (tasks : list (coroutine A)) (started : list (result (M A))).
Implicit Types (outs : list (result A)).

Lemma start_tasks_length tasks w :
  length (start_tasks tasks w).1 = length tasks.
Proof.
  revert w. induction tasks as [|task tasks IH]; intros w; simpl; [done|].
  destruct (task w) as [st w']. specialize (IH w').
  destruct (start_tasks tasks w') as [rest w'']. simpl in *. by rewrite IH.
Qed.

Lemma start_tasks_resolves tasks outs w :
  Forall2 co_returns tasks outs → Forall2 resolves (start_tasks tasks w).1 outs.
Proof.
  intros Hret. revert w.
  induction Hret as [|task o tasks outs Hto _ IH]; intros w; simpl; [constructor|].
  specialize (Hto w). destruct (task w) as [st w']. specialize (IH w').
  destruct (start_tasks tasks w') as [rest w'']. simpl in *. by constructor.
Qed.

Lemma complete_tasks_lookup started outs order slots w i :
  Forall2 resolves started outs →
  (complete_tasks started order slots w).1 !! i =
    if decide (i ∈ order ∧ (i < length started)%nat) then outs !! i else slots !! i.
Proof.
  intros Hres. revert slots w.
  induction order as [|j order IH]; intros slots w; cbn [complete_tasks].
  - rewrite decide_False; [done|]. intros [[]%elem_of_nil _].
  - destruct (started !! j) as [st|] eqn:Hst.
    + destruct (Forall2_lookup_l _ _ _ _ _ Hres Hst) as (o & Ho & Hsto).
      pose proof (lookup_lt_Some _ _ _ Hst) as Hlt.
      assert (Hstep : ∀ slots' w',
                (complete_tasks started order (<[j := o]> slots') w').1 !! i
                = if decide (i ∈ j :: order ∧ (i < length started)%nat)
                  then outs !! i else slots' !! i).
      { intros slots' w'. rewrite IH.
        destruct (decide (i ∈ order ∧ (i < length started)%nat)) as [[Hin Hl]|Hn].
        - rewrite decide_True; [done|]. split; [by apply elem_of_cons; right|done].
        - destruct (decide (i = j)) as [->|Hne].
          + rewrite lookup_insert_eq, decide_True; [done|].
            split; [by apply elem_of_cons; left|done].
          + rewrite lookup_insert_ne, decide_False; [done| |done].
            intros [[?|?]%elem_of_cons ?]; [done|]. apply Hn. done. }
      destruct st as [rest|e]; simpl in Hsto.
      * specialize (Hsto w). destruct (rest w) as [r w']. simpl in Hsto. subst r.
        apply Hstep.
      * subst o. apply Hstep.
    + rewrite IH. apply lookup_ge_None in Hst. apply decide_ext.
      split; intros [Hin Hl].
      * split; [by apply elem_of_cons; right|done].
      * split; [|done]. apply elem_of_cons in Hin as [->|Hin]; [|done].
        exfalso. apply (Nat.lt_irrefl j). by eapply Nat.lt_le_trans.
Qed.

(** The slots come back in the order of the tasks, whatever the order of
    completion. *)
Lemma gather_returns latency tasks outs w :
  Forall2 co_returns tasks outs →
  (gather latency tasks w).1 = Ok outs.
Proof.
  intros Hret. unfold gather.
  pose proof (start_tasks_resolves tasks outs w Hret) as Hres.
  pose proof (start_tasks_length tasks w) as Hlen.
  destruct (start_tasks tasks w) as [started w1]. simpl in Hres, Hlen.
  destruct (complete_tasks started _ ∅ w1) as [slots w2] eqn:Hrun. simpl. f_equal.
  rewrite <- (omap_lookup_seq outs), <- (Forall2_length _ _ _ Hres), Hlen.
  apply list_omap_ext, Forall_Forall2_diag, Forall_forall.
  intros i [_ Hi]%elem_of_seq. simpl in Hi.
  pose proof (complete_tasks_lookup started outs
                (completion_order latency (length tasks)) ∅ w1 i Hres) as Hl.
  rewrite Hrun in Hl. simpl in Hl. rewrite Hl, decide_True; [done|].
  rewrite Hlen. split; [|done].
  rewrite completion_order_Permutation. apply elem_of_seq. simpl.
  split; [apply Nat.le_0_l|done].
Qed.

Lemma complete_tasks_keeps {X} (proj : world → X) started order slots w :
  Forall (rest_keeps proj) started →
  proj (complete_tasks started order slots w).2 = proj w.
Proof.
  intros Hkeep. revert slots w.
  induction order as [|j order IH]; intros slots w; cbn [complete_tasks]; [done|].
  destruct (started !! j) as [[rest|e]|] eqn:Hst; [|apply IH..].
  pose proof (Forall_lookup_1 _ _ _ _ Hkeep Hst w) as Hw. simpl in Hw.
  destruct (rest w) as [r w']. by rewrite IH.
Qed.

Lemma start_tasks_keeps {X} (proj : world → X) tasks w :
  Forall (co_keeps proj) tasks →
  proj (start_tasks tasks w).2 = proj w
  ∧ Forall (rest_keeps proj) (start_tasks tasks w).1.
Proof.
  intros Hkeep. revert w.
  induction Hkeep as [|task tasks Ht _ IH]; intros w; simpl; [by split|].
  destruct (Ht w) as [Hw Hrest]. destruct (task w) as [st w'].
  destruct (IH w') as [Hw' Hrests].
  destruct (start_tasks tasks w') as [rest w'']. simpl in *.
  split; [congruence|by constructor].
Qed.

(** A part of the state that no task changes is left as it was. *)
Lemma gather_keeps {X} (proj : world → X) latency tasks w :
  Forall (co_keeps proj) tasks →
  proj (gather latency tasks w).2 = proj w.
Proof.
  intros Hkeep. unfold gather.
  destruct (start_tasks_keeps proj tasks w Hkeep) as [Hw Hrests].
  destruct (start_tasks tasks w) as [started w1]. simpl in *.
  pose proof (complete_tasks_keeps proj started
                (completion_order latency (length tasks)) ∅ w1 Hrests) as Hw1.
  destruct (complete_tasks started _ ∅ w1) as [slots w2]. simpl in *. congruence.
Qed.

Lemma start_tasks_sent tasks reqs w :
  Forall2 co_sends tasks reqs →
  sent (start_tasks tasks w).2 = sent w ++ reqs
  ∧ Forall (rest_keeps sent) (start_tasks tasks w).1.
Proof.
  intros Hs. revert w.
  induction Hs as [|task r tasks reqs Htr _ IH]; intros w; simpl.
  { by rewrite app_nil_r. }
  destruct (Htr w) as [Hw Hrest]. destruct (task w) as [st w'].
  destruct (IH w') as [Hw' Hrests].
  destruct (start_tasks tasks w') as [rest w'']. simpl in *.
  split; [|by constructor]. rewrite Hw', Hw. by rewrite <- app_assoc.
Qed.

(** The requests go out when the tasks are started: in the order of the
    tasks, whatever the order of completion. *)
Lemma gather_sent latency tasks reqs w :
  Forall2 co_sends tasks reqs →
  sent (gather latency tasks w).2 = sent w ++ reqs.
Proof.
  intros Hs. unfold gather.
  destruct (start_tasks_sent tasks reqs w Hs) as [Hw Hrests].
  destruct (start_tasks tasks w) as [started w1]. simpl in *.
  pose proof (complete_tasks_keeps sent started
                (completion_order latency (length tasks)) ∅ w1 Hrests) as Hw1.
  destruct (complete_tasks started _ ∅ w1) as [slots w2]. simpl in *. congruence.
Qed.

End GatherFacts.

(** ** [range] *)

Lemma py_range_length a b : length (py_range a b) = Z.to_nat (b - a).
Proof. unfold py_range. by rewrite length_fmap, length_seq. Qed.

Lemma py_range_empty a b : b ≤ a → py_range a b = [].
Proof.
  intros Hle. apply nil_length_inv. rewrite py_range_length. lia.
Qed.

Lemma py_range_from_1 n :
  py_range 1 n = Z.of_nat <$> seq 1 (Z.to_nat (n - 1)).
Proof.
  unfold py_range. rewrite <- fmap_S_seq, <- list_fmap_compose.
  apply list_fmap_ext. intros _ i _. simpl. lia.
Qed.

Lemma elem_of_py_range a b x : x ∈ py_range a b ↔ a ≤ x < b.
Proof.
  unfold py_range. rewrite list_elem_of_fmap. split.
  - intros (i & -> & [_ Hi]%elem_of_seq). lia.
  - intros Hx. exists (Z.to_nat (x - a)). split; [lia|].
    apply elem_of_seq. lia.
Qed.

Lemma py_range_cons a b : a < b → py_range a b = a :: py_range (a + 1) b.
Proof.
  intros Hlt. unfold py_range.
  replace (Z.to_nat (b - a)) with (S (Z.to_nat (b - (a + 1)))) by lia.
  cbn [seq fmap list_fmap]. f_equal; [lia|].
  rewrite <- fmap_S_seq, <- list_fmap_compose.
  apply list_fmap_ext. intros _ i _. simpl. lia.
Qed.

Lemma py_range_split a k b :
  a ≤ k < b → py_range a b = py_range a k ++ k :: py_range (k + 1) b.
Proof.
  intros Hk. remember (Z.to_nat (k - a)) as n eqn:Hn. revert a Hk Hn.
  induction n as [|n IH]; intros a Hk Hn.
  - assert (k = a) as -> by lia.
    by rewrite (py_range_empty a a), (py_range_cons a b) by lia.
  - rewrite (py_range_cons a b), (py_range_cons a k) by lia.
    by rewrite (IH (a + 1)) by lia.
Qed.

Lemma py_range_sorted a b : StronglySorted Z.lt (py_range a b).
Proof.
  unfold py_range. generalize (Z.to_nat (b - a)) as n. generalize 0%nat as s.
  intros s n. revert s. induction n as [|n IH]; intros s; simpl.
  - constructor.
  - constructor; [apply IH|].
    apply Forall_fmap, Forall_forall. intros i [Hi _]%elem_of_seq. simpl. lia.
Qed.

Lemma StronglySorted_sublist {A} (R : relation A) (l1 l2 : list A) :
  l1 `sublist_of` l2 → StronglySorted R l2 → StronglySorted R l1.
Proof.
  induction 1 as [|x l1 l2 Hsub IH|x l1 l2 Hsub IH]; intros Hs; [constructor|..];
    apply StronglySorted_cons in Hs as [Hall Hs]; [|by apply IH].
  apply StronglySorted_cons. split; [|by apply IH].
  rewrite Forall_forall in Hall |- *. intros y Hy. apply Hall.
  by apply (elem_of_sublist l1).
Qed.

Lemma StronglySorted_scale (c : Z) (l : list Z) :
  0 < c → StronglySorted Z.lt l → StronglySorted Z.lt ((λ p, p * c) <$> l).
Proof.
  intros Hc. induction 1 as [|x l Hs IH Hall]; simpl; constructor; [done|].
  apply Forall_fmap. eapply Forall_impl; [exact Hall|]. simpl. intros y Hy. nia.
Qed.

(** ** The client *)

Section ClientFacts.
Context {models : Models} {platform : Platform}.

Lemma _get_session_run w :
  HAS_AIOHTTP = true →
  _get_session w =
    (Ok {| closed := false |},
     World (Some {| closed := false |}) (sent w) (files w)).
Proof.
  intros E. unfold _get_session. rewrite E. simpl.
  destruct w as [[[[]]|] rq fs]; reflexivity.
Qed.

(** [get_markets], run: the configuration check, the session, the request,
    then the response. *)
Lemma get_markets_run qs pp path w :
  get_markets qs pp path w =
    if pp && bool_decide (path ≠ None) then
      (Raise (Exception exclusive_modes_msg), w)
    else if negb HAS_AIOHTTP then
      (Raise (ImportError "aiohttp is required. Install with: pip install aiohttp"), w)
    else
      let w1 := issued (Request gamma_markets_endpoint (default [] qs)) w in
      match http_get gamma_markets_endpoint (default [] qs) with
      | NoReply err => (Raise (ClientError err), w1)
      | Reply status body =>
          if status =? 200 then
            match body with
            | inl msg => (Raise (DecodeError msg), w1)
            | inr data =>
                match path with
                | Some p =>
                    match open_w p with
                    | Some err => (Raise (OSError err), w1)
                    | None =>
                        (Ok None,
                         World (_session w1) (sent w1) (<[p := data]> (files w1)))
                    end
                | None =>
                    (Ok (Some
                           (if pp then
                              Parsed <$>
                                foldl (λ markets market_object,
                                         let parsed := parse_pydantic_market market_object in
                                         if py_bool truthy_Market parsed
                                         then markets ++ [parsed] else markets)
                                      [] data
                            else Raw <$> data)), w1)
                end
            end
          else (Raise (Exception (api_error_msg status)), w1)
      end.
Proof.
  unfold get_markets.
  destruct (pp && bool_decide (path ≠ None)); [reflexivity|].
  destruct HAS_AIOHTTP eqn:E; simpl; [|unfold _get_session; rewrite E; reflexivity].
  rewrite M_bind_run, (_get_session_run w E).
  unfold session_get, log_request, issued. rewrite !M_bind_run. simpl.
  destruct (http_get _ _) as [err|status body]; simpl; [reflexivity|].
  destruct (status =? 200); [|reflexivity].
  destruct body as [msg|data]; simpl; [reflexivity|].
  destruct path as [p|]; simpl.
  - unfold dump_to_file. destruct (open_w p); reflexivity.
  - destruct pp; reflexivity.
Qed.

Lemma get_events_run qs pp path w :
  get_events qs pp path w =
    if pp && bool_decide (path ≠ None) then
      (Raise (Exception exclusive_modes_msg), w)
    else if negb HAS_AIOHTTP then
      (Raise (ImportError "aiohttp is required. Install with: pip install aiohttp"), w)
    else
      let w1 := issued (Request gamma_events_endpoint (default [] qs)) w in
      match http_get gamma_events_endpoint (default [] qs) with
      | NoReply err => (Raise (ClientError err), w1)
      | Reply status body =>
          if status =? 200 then
            match body with
            | inl msg => (Raise (DecodeError msg), w1)
            | inr data =>
                match path with
                | Some p =>
                    match open_w p with
                    | Some err => (Raise (OSError err), w1)
                    | None =>
                        (Ok None,
                         World (_session w1) (sent w1) (<[p := data]> (files w1)))
                    end
                | None =>
                    (Ok (Some
                           (if pp then
                              Parsed <$>
                                foldl (λ events market_event_obj,
                                         let parsed := parse_pydantic_event market_event_obj in
                                         if py_bool truthy_PolymarketEvent parsed
                                         then events ++ [parsed] else events)
                                      [] data
                            else Raw <$> data)), w1)
                end
            end
          else (Raise (Exception (api_error_msg status)), w1)
      end.
Proof.
  unfold get_events.
  destruct (pp && bool_decide (path ≠ None)); [reflexivity|].
  destruct HAS_AIOHTTP eqn:E; simpl; [|unfold _get_session; rewrite E; reflexivity].
  rewrite M_bind_run, (_get_session_run w E).
  unfold session_get, log_request, issued. rewrite !M_bind_run. simpl.
  destruct (http_get _ _) as [err|status body]; simpl; [reflexivity|].
  destruct (status =? 200); [|reflexivity].
  destruct body as [msg|data]; simpl; [reflexivity|].
  destruct path as [p|]; simpl.
  - unfold dump_to_file. destruct (open_w p); reflexivity.
  - destruct pp; reflexivity.
Qed.

(** What [get_markets] returns or raises does not depend on the state of
    the client. *)
Lemma get_markets_returns qs pp path :
  returns (get_markets qs pp path) (outcome (get_markets qs pp path)).
Proof.
  intros w. unfold outcome. rewrite !get_markets_run.
  repeat case_match; reflexivity.
Qed.

(** A raw fetch that returns has issued its request and got a 200 response
    with a decodable body; it returns the records of that body. *)
Lemma get_markets_raw_Ok qs w r w1 :
  get_markets (Some qs) false None w = (Ok r, w1) →
  HAS_AIOHTTP = true ∧
  w1 = issued (Request gamma_markets_endpoint qs) w ∧
  ∃ data, http_get gamma_markets_endpoint qs = Reply 200 (inr data) ∧
          r = Some (Raw <$> data).
Proof.
  rewrite get_markets_run. simpl.
  destruct HAS_AIOHTTP; simpl; [|done].
  destruct (http_get _ _) as [err|status body]; [done|].
  destruct (status =? 200) eqn:Hs; [|done].
  apply Z.eqb_eq in Hs as ->.
  destruct body as [msg|data]; [done|].
  intros [= <- <-]. eauto.
Qed.

(** Awaited on the spot, the coroutine is the method. *)
Lemma get_markets_co_await qs pp path w :
  await (get_markets_co qs pp path) w = get_markets qs pp path w.
Proof.
  unfold await, get_markets_co, get_markets.
  destruct (pp && bool_decide (path ≠ None)); [reflexivity|].
  destruct HAS_AIOHTTP eqn:E; [|unfold _get_session; rewrite E; reflexivity].
  rewrite !M_bind_run, (_get_session_run w E). reflexivity.
Qed.

(** The coroutine of a raw fetch: started, it issues its request; what is
    left of it changes nothing in the state and comes back with the outcome
    of the fetch. *)
Lemma get_markets_co_raw qs w :
  HAS_AIOHTTP = true →
  ∃ rest,
    get_markets_co (Some qs) false None w
      = (Ok rest, issued (Request gamma_markets_endpoint qs) w)
    ∧ ∀ w', rest w' = (fetch qs, w').
Proof.
  intros E. unfold get_markets_co. simpl.
  rewrite M_bind_run, (_get_session_run w E). eexists. split; [reflexivity|].
  intros w'. unfold fetch, outcome. rewrite get_markets_run, E. simpl.
  unfold response. rewrite M_bind_run.
  destruct (http_get _ _) as [err|status body]; simpl; [reflexivity|].
  destruct (status =? 200); [|reflexivity].
  destruct body as [msg|data]; reflexivity.
Qed.

Lemma get_markets_co_raw_offline qs w :
  HAS_AIOHTTP = false →
  ∃ e, get_markets_co (Some qs) false None w = (Raise e, w) ∧ fetch qs = Raise e.
Proof.
  intros E. eexists. unfold get_markets_co, fetch, outcome.
  rewrite get_markets_run. simpl. unfold _get_session. rewrite E. simpl.
  split; reflexivity.
Qed.

Lemma get_markets_co_returns qs :
  co_returns (get_markets_co (Some qs) false None) (fetch qs).
Proof.
  intros w. destruct HAS_AIOHTTP eqn:E.
  - destruct (get_markets_co_raw qs w E) as (rest & -> & Hrest).
    intros w'. by rewrite Hrest.
  - by destruct (get_markets_co_raw_offline qs w E) as (e & -> & ->).
Qed.

Lemma get_markets_co_sends qs :
  HAS_AIOHTTP = true →
  co_sends (get_markets_co (Some qs) false None) (Request gamma_markets_endpoint qs).
Proof.
  intros E w. destruct (get_markets_co_raw qs w E) as (rest & -> & Hrest).
  split; [reflexivity|]. intros w'. by rewrite Hrest.
Qed.

Lemma get_markets_co_keeps_files qs :
  co_keeps files (get_markets_co (Some qs) false None).
Proof.
  intros w. destruct HAS_AIOHTTP eqn:E.
  - destruct (get_markets_co_raw qs w E) as (rest & -> & Hrest).
    split; [reflexivity|]. intros w'. by rewrite Hrest.
  - by destruct (get_markets_co_raw_offline qs w E) as (e & -> & _).
Qed.

Lemma fetch_cases qs :
  (∃ e, fetch qs = Raise e) ∨ (∃ data, fetch qs = Ok (Some (Raw <$> data))).
Proof.
  unfold fetch, outcome.
  destruct (get_markets (Some qs) false None initial_world) as [[r|e] w1] eqn:Hrun.
  - apply get_markets_raw_Ok in Hrun as (_ & _ & data & _ & ->). right. eauto.
  - left. eauto.
Qed.

Lemma gathered_pages limit max_pages :
  gathered limit max_pages = page limit <$> py_range 1 (Z.min max_pages 10).
Proof. unfold gathered, page_requests. by rewrite <- list_fmap_compose. Qed.

(** What [get_all_current_markets] returns or raises, in terms of the
    outcomes of the page fetches alone: the completion order of the
    gathered tasks has no part in it. *)
Lemma get_all_current_markets_result limit max_pages latency w :
  (get_all_current_markets limit max_pages latency w).1 =
    match page limit 0 with
    | Raise e => Raise e
    | Ok None => Raise (TypeError "object of type 'NoneType' has no len()")
    | Ok (Some first_page) =>
        Ok (if fans_out limit first_page
            then aggregate limit (gathered limit max_pages) first_page
            else first_page)
    end.
Proof.
  unfold page, fetch. rewrite Z.mul_0_l.
  rewrite <- (get_markets_returns _ _ _ w).
  unfold get_all_current_markets. rewrite M_bind_run.
  destruct (get_markets _ false None w) as [[[first_page|]|e] w1]; try done.
  unfold fans_out. simpl.
  destruct (Z.of_nat (length first_page) =? 0); [done|].
  destruct (Z.of_nat (length first_page) =? limit); [|done]. simpl.
  assert (Hret : Forall2 co_returns
            ((λ qs, get_markets_co (Some qs) false None) <$> page_requests limit max_pages)
            (gathered limit max_pages)).
  { unfold gathered. apply Forall2_fmap, Forall_Forall2_diag, Forall_forall.
    intros qs _. apply get_markets_co_returns. }
  set (tasks := _ <$> page_requests limit max_pages) in *.
  set (outs := gathered limit max_pages) in *.
  clearbody tasks outs. destruct Hret as [|t o tasks' outs' Hto Hrest]; [done|].
  rewrite M_bind_run.
  pose proof (gather_returns latency (t :: tasks') (o :: outs') w1) as Hg.
  destruct (gather latency _ w1) as [results w2]. simpl in Hg.
  rewrite Hg; [done|]. by constructor.
Qed.

(** A call that has issued its request has passed the check of the output
    modes and found aiohttp. *)
Lemma get_markets_issues qs pp path w r :
  issues (get_markets qs pp path) w r →
  pp && bool_decide (path ≠ None) = false ∧ HAS_AIOHTTP = true.
Proof.
  unfold issues. rewrite get_markets_run.
  destruct (pp && bool_decide (path ≠ None)); simpl.
  { intros H%(f_equal length). rewrite length_app in H. simpl in H. lia. }
  destruct HAS_AIOHTTP; simpl; [done|].
  intros H%(f_equal length). rewrite length_app in H. simpl in H. lia.
Qed.

Lemma get_events_issues qs pp path w r :
  issues (get_events qs pp path) w r →
  pp && bool_decide (path ≠ None) = false ∧ HAS_AIOHTTP = true.
Proof.
  unfold issues. rewrite get_events_run.
  destruct (pp && bool_decide (path ≠ None)); simpl.
  { intros H%(f_equal length). rewrite length_app in H. simpl in H. lia. }
  destruct HAS_AIOHTTP; simpl; [done|].
  intros H%(f_equal length). rewrite length_app in H. simpl in H. lia.
Qed.

(** *** Output modes and error responses *)

Lemma api_error_msg_not_exclusive_modes_msg status :
  api_error_msg status ≠ exclusive_modes_msg.
Proof. discriminate. Qed.

(** C7.  With [parse_pydantic] true and a [local_file_path], [get_markets]
    and [get_events] raise the configuration error and leave the state as it
    was: no session has been acquired and no request issued.  With
    [local_file_path] absent, or with [parse_pydantic] false, that error is
    not raised. *)
Theorem exclusive_output_modes qs path w :
  get_markets qs true (Some path) w = (Raise (Exception exclusive_modes_msg), w)
  ∧ get_events qs true (Some path) w = (Raise (Exception exclusive_modes_msg), w)
  ∧ (∀ pp, (get_markets qs pp None w).1 ≠ Raise (Exception exclusive_modes_msg))
  ∧ (∀ path', (get_markets qs false path' w).1 ≠ Raise (Exception exclusive_modes_msg))
  ∧ (∀ pp, (get_events qs pp None w).1 ≠ Raise (Exception exclusive_modes_msg))
  ∧ (∀ path', (get_events qs false path' w).1 ≠ Raise (Exception exclusive_modes_msg)).
Proof.
  pose proof api_error_msg_not_exclusive_modes_msg as Hmsg.
  split; [reflexivity|]. split; [reflexivity|].
  repeat split; intros x; rewrite ?get_markets_run, ?get_events_run;
    rewrite ?andb_false_r; cbn [andb bool_decide decide_rel];
    repeat case_match; simpl; try discriminate; try congruence.
Qed.

(** C8, amended.  On a response with a status other than 200,
    [get_markets] raises a plain [Exception] whose message is
    ["Gamma API error: HTTP "] followed by the status in decimal.  The
    status can be read back from the message; the endpoint is not part of
    it, and [get_events] raises the very same exception for that status on
    its own endpoint. *)
Theorem api_error_carries_status qs pp path w status body :
  issues (get_markets qs pp path) w (Request gamma_markets_endpoint (default [] qs)) →
  http_get gamma_markets_endpoint (default [] qs) = Reply status body →
  status ≠ 200 →
  (get_markets qs pp path w).1
    = Raise (Exception ("Gamma API error: HTTP " +:+ pretty status))
  ∧ (∀ status',
       "Gamma API error: HTTP " +:+ pretty status'
         = "Gamma API error: HTTP " +:+ pretty status →
       status' = status)
  ∧ (∀ qs' pp' path' w' body',
       issues (get_events qs' pp' path') w'
         (Request gamma_events_endpoint (default [] qs')) →
       http_get gamma_events_endpoint (default [] qs') = Reply status body' →
       (get_events qs' pp' path' w').1
         = Raise (Exception ("Gamma API error: HTTP " +:+ pretty status))).
Proof.
  intros [Hmodes Haio]%get_markets_issues Hreply Hstatus.
  apply Z.eqb_neq in Hstatus.
  assert (Hrun : (get_markets qs pp path w).1
                 = Raise (Exception ("Gamma API error: HTTP " +:+ pretty status))).
  { rewrite get_markets_run, Hmodes, Haio, Hreply. simpl. by rewrite Hstatus. }
  split; [exact Hrun|]. split.
  - intros status' Heq. simpl in Heq.
    injection Heq as Heq. by apply (inj pretty).
  - intros qs' pp' path' w' body' [Hmodes' _]%get_events_issues Hreply'.
    rewrite get_events_run, Hmodes', Haio, Hreply'. simpl. by rewrite Hstatus.
Qed.

(** *** Dump to a file, parsed output *)

(** C9.  A call to [get_markets] or [get_events] with a [local_file_path]
    (and so without [parse_pydantic], or no request goes out) whose request
    is answered with status 200 decodes the body and opens the file.  When
    the file opens, the call writes the decoded records to it and returns
    [None], not a list; when [open] raises, the call raises that [OSError],
    returns nothing and writes nothing, and so it does with the decoding
    error when the body does not decode.  Either way the request is the only
    one issued. *)
Theorem dump_to_file_returns_None_or_raises qs path w body :
  HAS_AIOHTTP = true →
  (http_get gamma_markets_endpoint (default [] qs) = Reply 200 body →
   get_markets qs false (Some path) w =
     let request := Request gamma_markets_endpoint (default [] qs) in
     let w1 := World (Some {| closed := false |}) (sent w ++ [request]) (files w) in
     match body, open_w path with
     | inr data, None =>
         (Ok None,
          World (Some {| closed := false |}) (sent w ++ [request])
                (<[path := data]> (files w)))
     | inr data, Some err => (Raise (OSError err), w1)
     | inl msg, _ => (Raise (DecodeError msg), w1)
     end)
  ∧ (http_get gamma_events_endpoint (default [] qs) = Reply 200 body →
     get_events qs false (Some path) w =
       let request := Request gamma_events_endpoint (default [] qs) in
       let w1 := World (Some {| closed := false |}) (sent w ++ [request]) (files w) in
       match body, open_w path with
       | inr data, None =>
           (Ok None,
            World (Some {| closed := false |}) (sent w ++ [request])
                  (<[path := data]> (files w)))
       | inr data, Some err => (Raise (OSError err), w1)
       | inl msg, _ => (Raise (DecodeError msg), w1)
       end).
Proof.
  intros Haio. split; intros Hreply.
  - rewrite get_markets_run, Haio, Hreply. simpl.
    destruct body as [msg|data]; [done|]. by destruct (open_w path).
  - rewrite get_events_run, Haio, Hreply. simpl.
    destruct body as [msg|data]; [done|]. by destruct (open_w path).
Qed.

(** The loop of lines 147-151 (and 194-198) keeps, in order, the parse
    results that are truthy. *)
Lemma parse_loop_filter {A B} (parse : A → option B) (truthy : B → bool)
    (data : list A) (acc : list (option B)) :
  foldl (λ acc x, let parsed := parse x in
                  if py_bool truthy parsed then acc ++ [parsed] else acc)
        acc data
  = acc ++ List.filter (py_bool truthy) (parse <$> data).
Proof.
  revert acc. induction data as [|x data IH]; intros acc; simpl.
  - by rewrite app_nil_r.
  - rewrite IH. destruct (py_bool truthy (parse x)); [|done].
    by rewrite <- app_assoc.
Qed.

(** C10.  A call to [get_markets] with [parse_pydantic] true whose request
    is answered with status 200 returns the list of the records that
    parsed, in the order of the response: every element is a [Market]
    object obtained from a record of the response, [None] is not an element,
    and the list is no longer than the response. *)
Theorem failed_parses_are_dropped qs path w data :
  issues (get_markets qs true path) w
    (Request gamma_markets_endpoint (default [] qs)) →
  http_get gamma_markets_endpoint (default [] qs) = Reply 200 (inr data) →
  ∃ markets,
    (get_markets qs true path w).1 = Ok (Some markets)
    ∧ markets
      = Parsed <$> List.filter (py_bool truthy_Market) (parse_pydantic_market <$> data)
    ∧ (Parsed None ∉ markets)
    ∧ Forall (λ x, ∃ d m, d ∈ data ∧ parse_pydantic_market d = Some m
                          ∧ x = Parsed (Some m)) markets
    ∧ (length markets ≤ length data)%nat.
Proof.
  intros [Hmodes Haio]%get_markets_issues Hreply.
  destruct path as [p|]; [done|].
  eexists. split.
  { rewrite get_markets_run, Haio, Hreply. simpl. rewrite parse_loop_filter. done. }
  split; [done|]. split; [|split].
  - intros (o & [=<-] & Hin%list_elem_of_In%filter_In)%list_elem_of_fmap.
    by destruct Hin as [_ ?].
  - apply Forall_forall.
    intros x (o & -> & Hin%list_elem_of_In%filter_In)%list_elem_of_fmap.
    destruct Hin as [(d & -> & Hd)%list_elem_of_In%list_elem_of_fmap Ht].
    destruct (parse_pydantic_market d) as [m|] eqn:Hm; [|done]. eauto.
  - rewrite length_fmap.
    rewrite <- (length_fmap parse_pydantic_market data). apply filter_length_le.
Qed.

(** *** The first page *)

(** C3.  If page 0 returns 0 records, [get_all_current_markets] returns
    the empty sequence, and the state it leaves is the one the page-0
    fetch left: the request for page 0 is the only one issued.  This holds
    for every page size, in particular for every positive one. *)
Theorem empty_first_page_ends_fetch limit max_pages latency w w1 :
  get_markets (Some (page_params limit 0)) false None w = (Ok (Some []), w1) →
  get_all_current_markets limit max_pages latency w = (Ok [], w1)
  ∧ sent w1 = sent w ++ [Request gamma_markets_endpoint (page_params limit 0)].
Proof.
  intros Hrun. split.
  - unfold get_all_current_markets. rewrite M_bind_run, Hrun. reflexivity.
  - apply get_markets_raw_Ok in Hrun as (_ & -> & _). reflexivity.
Qed.

(** C4.  For a page size [limit > 0] and [0 < k < limit]: if page 0
    returns exactly [k] records, [get_all_current_markets] returns exactly
    those records, in order, and the request for page 0 is the only one
    issued. *)
Theorem short_first_page_ends_fetch limit max_pages latency w w1 first_page k :
  0 < limit →
  0 < k < limit →
  Z.of_nat (length first_page) = k →
  get_markets (Some (page_params limit 0)) false None w = (Ok (Some first_page), w1) →
  get_all_current_markets limit max_pages latency w = (Ok first_page, w1)
  ∧ sent w1 = sent w ++ [Request gamma_markets_endpoint (page_params limit 0)].
Proof.
  intros _ Hk Hlen Hrun. split.
  - unfold get_all_current_markets. rewrite M_bind_run, Hrun, Hlen.
    destruct (Z.eqb_spec k 0) as [->|_]; [lia|].
    destruct (Z.eqb_spec k limit) as [->|_]; [lia|]. reflexivity.
  - apply get_markets_raw_Ok in Hrun as (_ & -> & _). reflexivity.
Qed.

(** *** The aggregation loop *)

(** The loop passes over failed pages: its result is the one it computes
    from the successful pages alone. *)
Lemma aggregate_skips_failures limit results all_markets :
  aggregate limit results all_markets
  = aggregate limit (List.filter is_Ok results) all_markets.
Proof.
  revert all_markets.
  induction results as [|[[[|x pg]|]|e] results IH]; intros acc; simpl; try done.
  by destruct (_ <? limit).
Qed.

(** The loop passes over empty pages too, without stopping. *)
Lemma aggregate_skips_empty_pages limit results all_markets :
  aggregate limit (Ok (Some []) :: results) all_markets
  = aggregate limit results all_markets.
Proof. reflexivity. Qed.

(** The loop stops after a page that is short and not empty. *)
Lemma aggregate_stops_at_short_page limit pg results all_markets :
  0 < Z.of_nat (length pg) < limit →
  aggregate limit (Ok (Some pg) :: results) all_markets = all_markets ++ pg.
Proof.
  intros Hlen. destruct pg as [|x pg]; [simpl in Hlen; lia|].
  cbn [aggregate]. destruct (Z.ltb_spec (Z.of_nat (length (x :: pg))) limit); [done|lia].
Qed.

(** The loop appends whole pages, in the order of the results. *)
Lemma aggregate_pages limit (ps0 : list Z) all_markets :
  ∃ ps pgs,
    ps `sublist_of` ps0
    ∧ Forall2 (λ p pg, page limit p = Ok (Some pg)) ps pgs
    ∧ aggregate limit (page limit <$> ps0) all_markets = all_markets ++ concat pgs.
Proof.
  revert all_markets. induction ps0 as [|p ps0 IH]; intros acc.
  { exists [], []. repeat split; [constructor|constructor|]. simpl. by rewrite app_nil_r. }
  rewrite fmap_cons. cbn [aggregate].
  destruct (page limit p) as [[[|x pg]|]|e] eqn:Hp;
    try (destruct (IH acc) as (ps & pgs & Hsub & Hpgs & ->);
         exists ps, pgs; split; [by apply sublist_cons|done]).
  destruct (_ <? limit).
  - exists [p], [x :: pg]. split; [apply sublist_skip, sublist_nil_l|].
    split; [by repeat constructor|]. simpl. by rewrite app_nil_r.
  - destruct (IH (acc ++ x :: pg)) as (ps & pgs & Hsub & Hpgs & ->).
    exists (p :: ps), ((x :: pg) :: pgs). split; [by apply sublist_skip|].
    split; [by constructor|]. simpl. by rewrite <- app_assoc.
Qed.

(** The records the loop appends come from successful pages. *)
Lemma aggregate_elements limit (ps0 : list Z) all_markets x :
  x ∈ aggregate limit (page limit <$> ps0) all_markets →
  x ∈ all_markets ∨ ∃ p pg, p ∈ ps0 ∧ page limit p = Ok (Some pg) ∧ x ∈ pg.
Proof.
  destruct (aggregate_pages limit ps0 all_markets) as (ps & pgs & Hsub & Hpgs & ->).
  intros [Hx|Hx]%elem_of_app; [by left|right].
  apply list_elem_of_In, in_concat in Hx as (pg & Hpg%list_elem_of_In & Hx%list_elem_of_In).
  apply list_elem_of_lookup in Hpg as [i Hi].
  destruct (Forall2_lookup_r _ _ _ _ _ Hpgs Hi) as (p & Hp & Hpage).
  exists p, pg. split; [|done].
  eapply elem_of_sublist; [|exact Hsub]. by eapply list_elem_of_lookup_2.
Qed.

(** C2.  [get_all_current_markets] raises exactly when the fetch of page 0
    does, and then the same exception.  When page 0 has come back, the call
    returns, and its result is the one the loop computes from the successful
    pages alone: a failed page takes no record away from the pages before or
    after it, and every record of the result is a record of page 0 or of a
    later page whose fetch succeeded. *)
Theorem only_first_page_failure_is_fatal limit max_pages latency w :
  (∀ e, (get_all_current_markets limit max_pages latency w).1 = Raise e
        ↔ (get_markets (Some (page_params limit 0)) false None w).1 = Raise e)
  ∧ (∀ first_page,
       (get_markets (Some (page_params limit 0)) false None w).1
         = Ok (Some first_page) →
       ∃ all_markets,
         (get_all_current_markets limit max_pages latency w).1 = Ok all_markets
         ∧ all_markets
           = (if fans_out limit first_page
              then aggregate limit (List.filter is_Ok (gathered limit max_pages))
                     first_page
              else first_page)
         ∧ ∀ x, x ∈ all_markets →
                x ∈ first_page
                ∨ ∃ p pg, 1 ≤ p ∧ page limit p = Ok (Some pg) ∧ x ∈ pg).
Proof.
  rewrite get_all_current_markets_result.
  rewrite (get_markets_returns (Some (page_params limit 0)) false None w).
  unfold page at 1 2, fetch. rewrite Z.mul_0_l.
  destruct (fetch_cases (page_params limit 0)) as [[e He]|[data Hd]];
    unfold fetch in *.
  - rewrite He. split; [intros e0; split; intros [= ->]; reflexivity|].
    intros first_page [=].
  - rewrite Hd. split; [intros e0; split; intros [=]|]. intros first_page [= <-].
    eexists. split; [reflexivity|]. split.
    { by rewrite <- aggregate_skips_failures. }
    destruct (fans_out limit (Raw <$> data)); [|by left].
    rewrite gathered_pages. intros x [Hx|(p & pg & Hp & Hpage & Hx)]%aggregate_elements;
      [by left|right].
    exists p, pg. apply elem_of_py_range in Hp. split; [lia|done].
Qed.

(** C6.  The sequence [get_all_current_markets] returns is the
    concatenation of whole pages: page 0 first, then pages of strictly
    ascending index, hence of strictly ascending offset.  It is the same
    whatever the order in which the gathered requests complete. *)
Theorem pages_in_offset_order limit max_pages latency w all_markets :
  (get_all_current_markets limit max_pages latency w).1 = Ok all_markets →
  (∃ ps pgs,
     head ps = Some 0
     ∧ StronglySorted Z.lt ps
     ∧ StronglySorted Z.lt ((λ p, p * limit) <$> ps)
     ∧ Forall2 (λ p pg, page limit p = Ok (Some pg)) ps pgs
     ∧ all_markets = concat pgs)
  ∧ (∀ latency',
       (get_all_current_markets limit max_pages latency' w).1 = Ok all_markets).
Proof.
  intros Hrun. split; [|by intros latency'; rewrite <- Hrun, !get_all_current_markets_result].
  rewrite get_all_current_markets_result in Hrun.
  destruct (page limit 0) as [[first_page|]|e] eqn:Hp0; try done.
  injection Hrun as <-.
  destruct (fans_out limit first_page) eqn:Hfan.
  - rewrite gathered_pages.
    destruct (aggregate_pages limit (py_range 1 (Z.min max_pages 10)) first_page)
      as (ps & pgs & Hsub & Hpgs & ->).
    assert (Hsorted : StronglySorted Z.lt (0 :: ps)).
    { constructor.
      - eapply StronglySorted_sublist; [exact Hsub|apply py_range_sorted].
      - apply Forall_forall. intros p Hp.
        apply (elem_of_sublist _ _ _ Hp), elem_of_py_range in Hsub. lia. }
    exists (0 :: ps), (first_page :: pgs). repeat split; try done.
    + apply StronglySorted_scale; [|done].
      apply andb_true_iff in Hfan as [Hne%negb_true_iff%Z.eqb_neq Hfull%Z.eqb_eq]. lia.
    + by constructor.
  - exists [0], [first_page]. repeat split.
    + repeat constructor.
    + repeat constructor.
    + by repeat constructor.
    + simpl. by rewrite app_nil_r.
Qed.

(** *** The end of the aggregation *)




(** *** The fan-out *)

(** After a first page that calls for the fan-out, the requests issued are
    the one for page 0 and then those the loop has constructed, in the order
    in which the loop has constructed them: every task issues its request
    when [asyncio.gather] starts it, and the tasks are started in the order
    of the list, whatever the order in which the replies arrive. *)
Lemma get_all_current_markets_sent limit max_pages latency w w1 first_page :
  get_markets (Some (page_params limit 0)) false None w = (Ok (Some first_page), w1) →
  fans_out limit first_page = true →
  sent (get_all_current_markets limit max_pages latency w).2
    = sent w1 ++ (Request gamma_markets_endpoint <$> page_requests limit max_pages).
Proof.
  intros Hrun Hfan.
  pose proof (get_markets_raw_Ok _ _ _ _ Hrun) as (Haio & _ & _).
  unfold get_all_current_markets. rewrite M_bind_run, Hrun.
  apply andb_true_iff in Hfan as [Hne%negb_true_iff Hfull]. rewrite Hne, Hfull.
  assert (Hs : Forall2 co_sends
            ((λ qs, get_markets_co (Some qs) false None) <$> page_requests limit max_pages)
            (Request gamma_markets_endpoint <$> page_requests limit max_pages)).
  { apply Forall2_fmap, Forall_Forall2_diag, Forall_forall.
    intros qs _. by apply get_markets_co_sends. }
  set (tasks := _ <$> page_requests limit max_pages) in *.
  set (reqs := _ <$> page_requests limit max_pages) in *.
  clearbody tasks reqs. destruct Hs as [|t r tasks' reqs' Htr Hrest].
  { simpl. by rewrite app_nil_r. }
  rewrite M_bind_run.
  pose proof (gather_sent latency (t :: tasks') (r :: reqs') w1) as Hg.
  destruct (gather latency _ w1) as [[results|e] w2]; simpl in *;
    apply Hg; by constructor.
Qed.

(** C5.  When page 0 is full, that is when it holds [limit > 0] records for
    the page size [limit], the loop constructs the query strings of exactly
    the pages 1 through [min(max_pages, 10) - 1], each with the three
    filters, the page size and offset [page * limit]; the requests issued
    after page 0's are exactly these, in this order, each to the markets
    endpoint; they are at most 9, whatever [max_pages]; and with [max_pages]
    0 or 1 (or less) no further request is issued and the result is page 0's
    records. *)
Theorem fan_out_requests limit max_pages latency w w1 first_page :
  0 < limit →
  Z.of_nat (length first_page) = limit →
  get_markets (Some (page_params limit 0)) false None w = (Ok (Some first_page), w1) →
  page_requests limit max_pages
    = (λ page : nat,
         [("active", JBool true); ("closed", JBool false);
          ("archived", JBool false); ("limit", JInt limit);
          ("offset", JInt (Z.of_nat page * limit))])
        <$> seq 1 (Z.to_nat (Z.min max_pages 10 - 1))
  ∧ (length (page_requests limit max_pages) ≤ 9)%nat
  ∧ sent (get_all_current_markets limit max_pages latency w).2
    = sent w1 ++
      ((λ page : nat,
          Request "https://gamma-api.polymarket.com/markets"
            [("active", JBool true); ("closed", JBool false);
             ("archived", JBool false); ("limit", JInt limit);
             ("offset", JInt (Z.of_nat page * limit))])
         <$> seq 1 (Z.to_nat (Z.min max_pages 10 - 1)))
  ∧ (length (sent (get_all_current_markets limit max_pages latency w).2)
       ≤ length (sent w1) + 9)%nat
  ∧ (max_pages ≤ 1 →
     get_all_current_markets limit max_pages latency w = (Ok first_page, w1)).
Proof.
  intros Hpos Hfull Hrun.
  assert (Hfan : fans_out limit first_page = true).
  { unfold fans_out. rewrite Hfull, Z.eqb_refl, andb_true_r.
    apply negb_true_iff, Z.eqb_neq. lia. }
  pose proof (get_all_current_markets_sent limit max_pages latency w w1 first_page
                Hrun Hfan) as Hsent.
  split; [|split; [|split; [|split]]].
  - unfold page_requests. cbv zeta.
    rewrite py_range_from_1, <- !list_fmap_compose. reflexivity.
  - unfold page_requests. cbv zeta. rewrite length_fmap, py_range_length. lia.
  - rewrite Hsent. f_equal. unfold page_requests. cbv zeta.
    rewrite py_range_from_1, <- !list_fmap_compose. reflexivity.
  - rewrite Hsent, length_app, length_fmap. unfold page_requests. cbv zeta.
    rewrite length_fmap, py_range_length. lia.
  - intros Hmax. unfold get_all_current_markets. rewrite M_bind_run, Hrun.
    apply andb_true_iff in Hfan as [Hne%negb_true_iff Hfull']. rewrite Hne, Hfull'.
    unfold page_requests. cbv zeta. rewrite py_range_empty by lia. reflexivity.
Qed.

End ClientFacts.

(** ** The properties at work on the concrete client *)

Lemma empty_first_page_ends_fetch_witness :
  let _ := Demo.models in
  let _ := Demo.platform 5 [Demo.page []] in
  let w1 := issued (Request gamma_markets_endpoint (page_params 5 0)) initial_world in
  get_markets (Some (page_params 5 0)) false None initial_world = (Ok (Some []), w1)
  ∧ get_all_current_markets 5 10 Demo.fifo initial_world = (Ok [], w1)
  ∧ sent w1 = [Request gamma_markets_endpoint (page_params 5 0)].
Proof.
  intros md pf w1. split; [vm_compute; reflexivity|].
  apply (empty_first_page_ends_fetch (models := md) (platform := pf) 5 10 Demo.fifo initial_world w1).
  vm_compute; reflexivity.
Defined.

Lemma short_first_page_ends_fetch_witness :
  let _ := Demo.models in
  let _ := Demo.platform 5 [Demo.page [1; 2; 3]] in
  let w1 := issued (Request gamma_markets_endpoint (page_params 5 0)) initial_world in
  let first_page := Raw <$> (Demo.market <$> [1; 2; 3]) in
  get_markets (Some (page_params 5 0)) false None initial_world
    = (Ok (Some first_page), w1)
  ∧ get_all_current_markets 5 10 Demo.fifo initial_world = (Ok first_page, w1)
  ∧ sent w1 = [Request gamma_markets_endpoint (page_params 5 0)].
Proof.
  intros md pf w1 first_page. split; [vm_compute; reflexivity|].
  apply (short_first_page_ends_fetch (models := md) (platform := pf) 5 10 Demo.fifo initial_world w1 first_page 3);
    [lia | lia | reflexivity | vm_compute; reflexivity].
Defined.

Lemma only_first_page_failure_is_fatal_witness :
  let _ := Demo.models in
  let _ := Demo.flaky in
  (get_markets (Some (page_params 2 0)) false None initial_world).1
    = Ok (Some (Demo.raw [0; 1]))
  ∧ page 2 1 = Raise (Exception "Gamma API error: HTTP 500")
  ∧ page 2 3 = Raise (ClientError "connection reset")
  ∧ (get_all_current_markets 2 10 Demo.lifo initial_world).1
    = Ok (Demo.raw [0; 1; 2; 3; 4]).
Proof.
  intros md pf. split; [vm_compute; reflexivity|].
  split; [vm_compute; reflexivity|]. split; [vm_compute; reflexivity|].
  destruct (proj2 (only_first_page_failure_is_fatal (models := md) (platform := pf)
                     2 10 Demo.lifo initial_world) (Demo.raw [0; 1]))
    as (all_markets & -> & -> & _); vm_compute; reflexivity.
Defined.

Lemma pages_in_offset_order_witness :
  let _ := Demo.models in
  let _ := Demo.flaky in
  (get_all_current_markets 2 10 Demo.lifo initial_world).1
    = Ok (Demo.raw [0; 1; 2; 3; 4])
  ∧ (∃ ps pgs,
       head ps = Some 0
       ∧ StronglySorted Z.lt ps
       ∧ StronglySorted Z.lt ((λ p, p * 2) <$> ps)
       ∧ Forall2 (λ p pg, page 2 p = Ok (Some pg)) ps pgs
       ∧ Demo.raw [0; 1; 2; 3; 4] = concat pgs)
  ∧ (get_all_current_markets 2 10 Demo.fifo initial_world).1
    = Ok (Demo.raw [0; 1; 2; 3; 4]).
Proof.
  intros md pf.
  assert (Hrun : (get_all_current_markets 2 10 Demo.lifo initial_world).1
                 = Ok (Demo.raw [0; 1; 2; 3; 4])) by (vm_compute; reflexivity).
  split; [exact Hrun|].
  destruct (pages_in_offset_order (models := md) (platform := pf) 2 10 Demo.lifo initial_world _ Hrun) as [Hpages Hany].
  split; [exact Hpages|apply Hany].
Defined.

Lemma fan_out_requests_witness :
  let _ := Demo.models in
  let _ := Demo.plenty in
  let w1 := issued (Request gamma_markets_endpoint (page_params 2 0)) initial_world in
  let get offset :=
    Request "https://gamma-api.polymarket.com/markets"
      [("active", JBool true); ("closed", JBool false); ("archived", JBool false);
       ("limit", JInt 2); ("offset", JInt offset)] in
  get_markets (Some (page_params 2 0)) false None initial_world
    = (Ok (Some (Demo.raw [0; 1])), w1)
  ∧ page_requests 2 3 = params <$> [get 2; get 4]
  ∧ (length (page_requests 2 1000) ≤ 9)%nat
  ∧ sent (get_all_current_markets 2 3 Demo.lifo initial_world).2
    = [get 0; get 2; get 4]
  ∧ sent (get_all_current_markets 2 1000 Demo.lifo initial_world).2
    = get <$> [0; 2; 4; 6; 8; 10; 12; 14; 16; 18]
  ∧ (length (sent (get_all_current_markets 2 1000 Demo.lifo initial_world).2) ≤ 1 + 9)%nat
  ∧ get_all_current_markets 2 1 Demo.lifo initial_world = (Ok (Demo.raw [0; 1]), w1)
  ∧ sent w1 = [get 0].
Proof.
  intros md pf w1 get.
  assert (Hrun : get_markets (Some (page_params 2 0)) false None initial_world
                 = (Ok (Some (Demo.raw [0; 1])), w1)) by (vm_compute; reflexivity).
  split; [exact Hrun|]. split; [|split; [|split; [|split; [|split; [|split]]]]].
  - apply (fan_out_requests (models := md) (platform := pf) 2 3 Demo.lifo initial_world w1 (Demo.raw [0; 1]));
      [lia|reflexivity|exact Hrun].
  - apply (fan_out_requests (models := md) (platform := pf) 2 1000 Demo.lifo initial_world w1 (Demo.raw [0; 1]));
      [lia|reflexivity|exact Hrun].
  - apply (fan_out_requests (models := md) (platform := pf) 2 3 Demo.lifo initial_world w1 (Demo.raw [0; 1]));
      [lia|reflexivity|exact Hrun].
  - apply (fan_out_requests (models := md) (platform := pf) 2 1000 Demo.lifo initial_world w1 (Demo.raw [0; 1]));
      [lia|reflexivity|exact Hrun].
  - apply (fan_out_requests (models := md) (platform := pf) 2 1000 Demo.lifo initial_world w1 (Demo.raw [0; 1]));
      [lia|reflexivity|exact Hrun].
  - apply (fan_out_requests (models := md) (platform := pf) 2 1 Demo.lifo initial_world w1 (Demo.raw [0; 1]));
      [lia|reflexivity|exact Hrun|lia].
  - reflexivity.
Defined.

(** At the boundary, a page size of 0: the page 0 that holds as many
    records as the page size is empty, which ends the fetch (C3), and the
    request for page 0 is the only one issued. *)
Lemma page_size_0_has_no_fan_out :
  let _ := Demo.models in
  let _ := Demo.nothing in
  let w1 := issued (Request gamma_markets_endpoint (page_params 0 0)) initial_world in
  get_markets (Some (page_params 0 0)) false None initial_world = (Ok (Some []), w1)
  ∧ Z.of_nat (length (@nil (element Market))) = 0
  ∧ length (page_requests 0 10) = 9%nat
  ∧ get_all_current_markets 0 10 Demo.fifo initial_world = (Ok [], w1)
  ∧ sent w1 = [Request gamma_markets_endpoint (page_params 0 0)].
Proof. intros md pf w1. repeat split; vm_compute; reflexivity. Qed.

Lemma api_error_carries_status_witness :
  let _ := Demo.models in
  let _ := Demo.down in
  issues (get_markets None false None) initial_world (Request gamma_markets_endpoint [])
  ∧ (get_markets None false None initial_world).1
    = Raise (Exception "Gamma API error: HTTP 404").
Proof.
  intros md pf. split; [vm_compute; reflexivity|].
  apply (api_error_carries_status (models := md) (platform := pf) None false None initial_world 404 (inl "Not Found"));
    [vm_compute; reflexivity|vm_compute; reflexivity|lia].
Defined.

(** The claim C8 as it is written has the exception carry the endpoint.  On
    a 404 the message of the exception is ["Gamma API error: HTTP 404"]: the
    endpoint occurs nowhere in it, and [get_events], which asks another
    endpoint, raises the same exception. *)
Lemma api_error_omits_endpoint :
  let _ := Demo.models in
  let _ := Demo.down in
  (get_markets None false None initial_world).1
    = Raise (Exception "Gamma API error: HTTP 404")
  ∧ String.index 0 gamma_markets_endpoint "Gamma API error: HTTP 404" = None
  ∧ (get_events None false None initial_world).1
    = Raise (Exception "Gamma API error: HTTP 404").
Proof. intros md pf. repeat split; vm_compute; reflexivity. Qed.

Lemma dump_to_file_returns_None_or_raises_witness :
  let _ := Demo.models in
  let _ := Demo.mixed in
  let data := [Demo.market 1; {[ "slug" := JStr "no-id" ]}; Demo.market 3] in
  get_markets None false (Some "markets.json") initial_world
    = (Ok None,
       World (Some {| closed := false |})
             [Request "https://gamma-api.polymarket.com/markets" []]
             {[ "markets.json" := data ]})
  ∧ get_events None false (Some "events.json") initial_world
    = (Ok None,
       World (Some {| closed := false |})
             [Request "https://gamma-api.polymarket.com/events" []]
             {[ "events.json" := data ]}).
Proof.
  intros md pf data.
  pose proof (dump_to_file_returns_None_or_raises (models := md) (platform := pf)
                None "markets.json" initial_world (inr data) eq_refl) as [Hm _].
  pose proof (dump_to_file_returns_None_or_raises (models := md) (platform := pf)
                None "events.json" initial_world (inr data) eq_refl) as [_ He].
  split; [apply Hm; vm_compute; reflexivity|apply He; vm_compute; reflexivity].
Defined.

(** The claim C9 as it is written has every such call write the file and
    return [None].  Where the file cannot be opened for writing, the call
    gets its 200 response, raises the [OSError] of [open] and writes
    nothing, in [get_markets] and in [get_events]. *)
Lemma dump_to_file_may_raise :
  let _ := Demo.models in
  let _ := Demo.readonly in
  let data := [Demo.market 1; {[ "slug" := JStr "no-id" ]}; Demo.market 3] in
  http_get gamma_markets_endpoint [] = Reply 200 (inr data)
  ∧ get_markets None false (Some "/markets.json") initial_world
    = (Raise (OSError "[Errno 13] Permission denied"),
       World (Some {| closed := false |})
             [Request "https://gamma-api.polymarket.com/markets" []] ∅)
  ∧ http_get gamma_events_endpoint [] = Reply 200 (inr data)
  ∧ get_events None false (Some "/events.json") initial_world
    = (Raise (OSError "[Errno 13] Permission denied"),
       World (Some {| closed := false |})
             [Request "https://gamma-api.polymarket.com/events" []] ∅).
Proof. intros md pf data. repeat split; vm_compute; reflexivity. Qed.

Lemma failed_parses_are_dropped_witness :
  let _ := Demo.models in
  let _ := Demo.mixed in
  issues (get_markets None true None) initial_world (Request gamma_markets_endpoint [])
  ∧ (get_markets None true None initial_world).1
    = Ok (Some [Parsed (Some 1); Parsed (Some 3)])
  ∧ ∃ markets,
      (get_markets None true None initial_world).1 = Ok (Some markets)
      ∧ (length markets ≤ 3)%nat.
Proof.
  intros md pf. split; [vm_compute; reflexivity|]. split; [vm_compute; reflexivity|].
  destruct (failed_parses_are_dropped (models := md) (platform := pf) None None initial_world
              [Demo.market 1; {[ "slug" := JStr "no-id" ]}; Demo.market 3])
    as (markets & Hrun & _ & _ & _ & Hlen);
    [vm_compute; reflexivity|vm_compute; reflexivity|].
  exists markets. split; [exact Hrun|exact Hlen].
Defined.



(** * Further properties of the client *)

(** ** The session *)

(** X1.  [close] never raises, issues no request and writes no file; it
    leaves no open session behind, and does not forget or create one; a
    second [close] changes nothing. *)
Theorem close_is_quiet_and_idempotent w :
  (close w).1 = Ok ()
  ∧ sent (close w).2 = sent w
  ∧ files (close w).2 = files w
  ∧ _session (close w).2 = (λ _, {| closed := true |}) <$> _session w
  ∧ close (close w).2 = (Ok (), (close w).2).
Proof. destruct w as [[[[]]|] rq fs]; repeat split. Qed.

Section SessionFacts.
Context {models : Models} {platform : Platform} {documents : Documents}.


(** [get_market], run. *)
Lemma get_market_run market_id w :
  get_market market_id w =
    if negb HAS_AIOHTTP then
      (Raise (ImportError "aiohttp is required. Install with: pip install aiohttp"), w)
    else
      let url := gamma_markets_endpoint +:+ "/" +:+ market_id in
      let w1 := issued (Request url []) w in
      match http_get_document url with
      | NoDocument err => (Raise (ClientError err), w1)
      | Document status body =>
          match body with
          | inl msg => (Raise (DecodeError msg), w1)
          | inr j => (Ok j, w1)
          end
      end.
Proof.
  unfold get_market.
  destruct HAS_AIOHTTP eqn:E; simpl; [|unfold _get_session; rewrite E; reflexivity].
  rewrite M_bind_run, (_get_session_run w E).
  unfold log_request, issued. rewrite !M_bind_run. simpl.
  destruct (http_get_document _) as [err|status [msg|j]]; reflexivity.
Qed.

(** X3.  While the flag [HAS_AIOHTTP] of the module is [False] nothing is
    fetched: every fetching method raises the [ImportError] of
    [_get_session] and leaves the client as it was, no request having been
    issued.  (The check of the output modes comes first: a call that fails
    it raises the configuration error instead.)  Lines 12-17 clear the flag
    when aiohttp cannot be imported; the class is then defined only by an
    interpreter that does not evaluate the annotation of line 38 when it
    defines [_get_session], as Python does from 3.14 on: an earlier one
    stops at that line with a [NameError], and no method can be called. *)
Theorem without_aiohttp_nothing_is_fetched w :
  HAS_AIOHTTP = false →
  let e := ImportError "aiohttp is required. Install with: pip install aiohttp" in
  (∀ qs pp, get_markets qs pp None w = (Raise e, w))
  ∧ (∀ qs path, get_markets qs false path w = (Raise e, w))
  ∧ (∀ qs pp, get_events qs pp None w = (Raise e, w))
  ∧ (∀ qs path, get_events qs false path w = (Raise e, w))
  ∧ (∀ limit max_pages latency,
       get_all_current_markets limit max_pages latency w = (Raise e, w))
  ∧ (∀ market_id, get_market market_id w = (Raise e, w)).
Proof.
  intros Haio e. repeat split; intros.
  - rewrite get_markets_run, Haio. by destruct pp.
  - rewrite get_markets_run, Haio. reflexivity.
  - rewrite get_events_run, Haio. by destruct pp.
  - rewrite get_events_run, Haio. reflexivity.
  - unfold get_all_current_markets.
    rewrite M_bind_run, get_markets_run, Haio. reflexivity.
  - rewrite get_market_run, Haio. reflexivity.
Qed.

(** ** One fetch *)

(** X4.  A call that passes the check of the output modes issues exactly
    one GET, whatever comes back, and leaves the session open, also when it
    goes on to raise. *)
Theorem every_call_issues_one_request qs pp path w :
  pp && bool_decide (path ≠ None) = false →
  HAS_AIOHTTP = true →
  issues (get_markets qs pp path) w (Request gamma_markets_endpoint (default [] qs))
  ∧ _session (get_markets qs pp path w).2 = Some {| closed := false |}
  ∧ issues (get_events qs pp path) w (Request gamma_events_endpoint (default [] qs))
  ∧ _session (get_events qs pp path w).2 = Some {| closed := false |}.
Proof.
  intros Hmodes Haio. unfold issues.
  rewrite get_markets_run, get_events_run, Hmodes, Haio. simpl.
  repeat split; repeat case_match; reflexivity.
Qed.

(** X5.  A fetch writes no file but the one at [local_file_path], and
    writes that one only when it returns [None]: a call that raises, or that
    returns a list, leaves every file as it was. *)
Theorem only_the_dump_file_is_written qs pp path w :
  (∀ p, path ≠ Some p → files (get_markets qs pp path w).2 !! p = files w !! p)
  ∧ ((get_markets qs pp path w).1 ≠ Ok None →
     files (get_markets qs pp path w).2 = files w)
  ∧ (∀ p, path ≠ Some p → files (get_events qs pp path w).2 !! p = files w !! p)
  ∧ ((get_events qs pp path w).1 ≠ Ok None →
     files (get_events qs pp path w).2 = files w).
Proof.
  rewrite get_markets_run, get_events_run.
  repeat split; intros; repeat case_match; simplify_eq; simpl in *;
    try done; rewrite lookup_insert_ne; congruence.
Qed.

(** X6.  A raw fetch returns exactly when aiohttp is there and the server
    answers 200 with a body that decodes; what it returns is the records of
    the body, all of them and in order. *)
Theorem raw_fetch_returns_the_body qs w res :
  (get_markets (Some qs) false None w).1 = Ok res
  ↔ HAS_AIOHTTP = true
    ∧ ∃ data, http_get gamma_markets_endpoint qs = Reply 200 (inr data)
              ∧ res = Some (Raw <$> data).
Proof.
  split.
  - destruct (get_markets (Some qs) false None w) as [r w1] eqn:Hrun.
    simpl. intros ->.
    apply get_markets_raw_Ok in Hrun as (Haio & _ & data & Hreply & ->). eauto.
  - intros (Haio & data & Hreply & ->).
    rewrite get_markets_run, Haio. simpl. rewrite Hreply. reflexivity.
Qed.

(** X7.  [get_events] with [parse_pydantic] true, on a 200 response: the
    list returned holds, in the order of the response, the events that
    parsed; [None] is not an element and the list is no longer than the
    response. *)
Theorem failed_event_parses_are_dropped qs path w data :
  issues (get_events qs true path) w
    (Request gamma_events_endpoint (default [] qs)) →
  http_get gamma_events_endpoint (default [] qs) = Reply 200 (inr data) →
  ∃ events,
    (get_events qs true path w).1 = Ok (Some events)
    ∧ events
      = Parsed <$> List.filter (py_bool truthy_PolymarketEvent)
                     (parse_pydantic_event <$> data)
    ∧ (Parsed None ∉ events)
    ∧ Forall (λ x, ∃ d e, d ∈ data ∧ parse_pydantic_event d = Some e
                          ∧ x = Parsed (Some e)) events
    ∧ (length events ≤ length data)%nat.
Proof.
  intros [Hmodes Haio]%get_events_issues Hreply.
  destruct path as [p|]; [done|].
  eexists. split.
  { rewrite get_events_run, Haio, Hreply. simpl. rewrite parse_loop_filter. done. }
  split; [done|]. split; [|split].
  - intros (o & [=<-] & Hin%list_elem_of_In%filter_In)%list_elem_of_fmap.
    by destruct Hin as [_ ?].
  - apply Forall_forall.
    intros x (o & -> & Hin%list_elem_of_In%filter_In)%list_elem_of_fmap.
    destruct Hin as [(d & -> & Hd)%list_elem_of_In%list_elem_of_fmap Ht].
    destruct (parse_pydantic_event d) as [e|] eqn:He; [|done]. eauto.
  - rewrite length_fmap.
    rewrite <- (length_fmap parse_pydantic_event data). apply filter_length_le.
Qed.

(** ** The single market *)

(** X8.  [get_market] does not look at the status of the response: the
    decoded body is returned whatever the status, and the exception
    [get_markets] raises on a status other than 200 is never raised. *)
Theorem get_market_ignores_the_status market_id w :
  (∀ msg, (get_market market_id w).1 ≠ Raise (Exception msg))
  ∧ (∀ status j,
       HAS_AIOHTTP = true →
       http_get_document (gamma_markets_endpoint +:+ "/" +:+ market_id)
         = Document status (inr j) →
       get_market market_id w
         = (Ok j,
            issued (Request (gamma_markets_endpoint +:+ "/" +:+ market_id) []) w)).
Proof.
  rewrite get_market_run. split.
  - intros msg. cbv zeta. destruct HAS_AIOHTTP; simpl; [|done].
    destruct (http_get_document _) as [err|status [m|j]]; done.
  - intros status j Haio Hdoc. rewrite Haio. simpl. by rewrite Hdoc.
Qed.

(** ** The convenience fetchers *)

Lemma get_markets_fetches_once qs :
  fetches_once (get_markets (Some qs) false None) (Request gamma_markets_endpoint qs).
Proof.
  intros w. rewrite get_markets_run. simpl.
  split; [repeat case_match; auto|].
  intros res. destruct HAS_AIOHTTP; simpl; [|done].
  destruct (http_get _ _) as [err|status body]; [done|].
  destruct (Z.eqb_spec status 200) as [->|_]; [|done].
  destruct body as [msg|data]; [done|]. intros [= <-]. eauto.
Qed.

Lemma get_events_fetches_once qs :
  fetches_once (get_events (Some qs) false None) (Request gamma_events_endpoint qs).
Proof.
  intros w. rewrite get_events_run. simpl.
  split; [repeat case_match; auto|].
  intros res. destruct HAS_AIOHTTP; simpl; [|done].
  destruct (http_get _ _) as [err|status body]; [done|].
  destruct (Z.eqb_spec status 200) as [->|_]; [|done].
  destruct body as [msg|data]; [done|]. intros [= <-]. eauto.
Qed.

(** X9.  The five convenience fetchers are single raw fetches, each with
    its own filter: none of them pages through the collection (not
    [get_all_markets] or [get_all_events] either), parses a record or
    writes a file, and what one returns is the whole body of the one 200
    response, never [None]. *)
Theorem convenience_fetchers_fetch_once limit :
  fetches_once (get_all_markets limit)
    (Request gamma_markets_endpoint [("limit", JInt limit)])
  ∧ fetches_once (get_all_events limit)
      (Request gamma_events_endpoint [("limit", JInt limit)])
  ∧ fetches_once (get_current_markets limit)
      (Request gamma_markets_endpoint
         [("active", JBool true); ("closed", JBool false);
          ("archived", JBool false); ("limit", JInt limit)])
  ∧ fetches_once (get_current_events limit)
      (Request gamma_events_endpoint
         [("active", JBool true); ("closed", JBool false);
          ("archived", JBool false); ("limit", JInt limit)])
  ∧ fetches_once (get_clob_tradable_markets limit)
      (Request gamma_markets_endpoint
         [("active", JBool true); ("closed", JBool false);
          ("archived", JBool false); ("limit", JInt limit);
          ("enableOrderBook", JBool true)]).
Proof.
  split; [|split; [|split; [|split]]];
    first [apply get_markets_fetches_once | apply get_events_fetches_once].
Qed.

End SessionFacts.

(** ** The paginated fetch *)

Section PaginationFacts.
Context {models : Models} {platform : Platform}.

(** Nothing after a short page that is not empty reaches the result. *)
Lemma aggregate_cut limit pre pg post all_markets :
  0 < Z.of_nat (length pg) < limit →
  aggregate limit (pre ++ Ok (Some pg) :: post) all_markets
  = aggregate limit (pre ++ [Ok (Some pg)]) all_markets.
Proof.
  intros Hlen. revert all_markets.
  induction pre as [|[[[|x r]|]|e] pre IH]; intros acc; cbn [app];
    [|cbn [aggregate]; try apply IH..].
  - by rewrite !aggregate_stops_at_short_page.
  - destruct (_ <? limit); [done|apply IH].
Qed.

(** Full pages are all appended. *)
Lemma aggregate_full limit (ps : list Z) (pgf : Z → list (element Market)) all_markets :
  0 < limit →
  (∀ p, p ∈ ps → page limit p = Ok (Some (pgf p))
                 ∧ Z.of_nat (length (pgf p)) = limit) →
  aggregate limit (page limit <$> ps) all_markets
  = all_markets ++ concat (pgf <$> ps).
Proof.
  intros Hpos. revert all_markets.
  induction ps as [|p ps IH]; intros acc Hfull; simpl.
  - by rewrite app_nil_r.
  - destruct (Hfull p) as [-> Hlen]; [by left|].
    destruct (pgf p) as [|x pg] eqn:Hpg; [simpl in Hlen; lia|].
    destruct (Z.ltb_spec (Z.of_nat (length (x :: pg))) limit) as [Hlt|_]; [lia|].
    rewrite IH, <- app_assoc; [done|].
    intros q Hq. apply Hfull. by right.
Qed.

Lemma concat_length_bound {T} (pgs : list (list T)) (limit : Z) :
  Forall (λ pg, Z.of_nat (length pg) ≤ limit) pgs →
  Z.of_nat (length (concat pgs)) ≤ Z.of_nat (length pgs) * limit.
Proof.
  induction 1 as [|pg pgs Hpg Hpgs IH]; simpl; [lia|].
  rewrite length_app. lia.
Qed.

Lemma get_markets_raw_files qs w :
  files (get_markets (Some qs) false None w).2 = files w.
Proof. rewrite get_markets_run. simpl. repeat case_match; reflexivity. Qed.

(** X10.  With a page size of 0 or less there is no fan-out: the result is
    what page 0 returned, however many records that is, and the request for
    page 0 is the only one issued. *)
Theorem non_positive_page_size_never_fans_out limit max_pages latency w w1 first_page :
  limit ≤ 0 →
  get_markets (Some (page_params limit 0)) false None w = (Ok (Some first_page), w1) →
  get_all_current_markets limit max_pages latency w = (Ok first_page, w1)
  ∧ sent w1 = sent w ++ [Request gamma_markets_endpoint (page_params limit 0)].
Proof.
  intros Hlimit Hrun. split.
  - unfold get_all_current_markets. rewrite M_bind_run, Hrun.
    destruct (Z.eqb_spec (Z.of_nat (length first_page)) 0) as [_|Hne]; [done|].
    destruct (Z.eqb_spec (Z.of_nat (length first_page)) limit) as [Heq|_]; [lia|done].
  - apply get_markets_raw_Ok in Hrun as (_ & -> & _). reflexivity.
Qed.

(** X11.  When every page the fan-out may ask for is full, the result is
    these pages in order, page 0 first: [max(1, min(max_pages, 10))] pages,
    so never more than ten, although the last one was full too. *)
Theorem full_pages_are_capped limit max_pages latency w
    (pgf : Z → list (element Market)) :
  0 < limit →
  (∀ p, 0 ≤ p < Z.max 1 (Z.min max_pages 10) →
        page limit p = Ok (Some (pgf p)) ∧ Z.of_nat (length (pgf p)) = limit) →
  (get_all_current_markets limit max_pages latency w).1
    = Ok (concat (pgf <$> py_range 0 (Z.max 1 (Z.min max_pages 10))))
  ∧ (length (py_range 0 (Z.max 1 (Z.min max_pages 10))) ≤ 10)%nat.
Proof.
  intros Hpos Hfull. split; [|rewrite py_range_length; lia].
  rewrite get_all_current_markets_result.
  destruct (Hfull 0) as [-> Hlen0]; [lia|].
  assert (fans_out limit (pgf 0) = true) as ->.
  { unfold fans_out. rewrite Hlen0, Z.eqb_refl, andb_true_r.
    apply negb_true_iff, Z.eqb_neq. lia. }
  rewrite gathered_pages, (py_range_cons 0) by lia. simpl. f_equal.
  assert (py_range 1 (Z.min max_pages 10)
          = py_range 1 (Z.max 1 (Z.min max_pages 10))) as ->.
  { destruct (Z.max_spec 1 (Z.min max_pages 10)) as [[_ ->]|[Hle ->]]; [done|].
    by rewrite !py_range_empty by lia. }
  apply aggregate_full; [done|].
  intros p Hp%elem_of_py_range. apply Hfull. lia.
Qed.

(** X12.  When no page holds more records than the page size, the result
    holds at most [max(1, min(max_pages, 10))] pages' worth of records: at
    most ten times the page size, whatever [max_pages]. *)
Theorem result_is_bounded limit max_pages latency w all_markets :
  (∀ p pg, page limit p = Ok (Some pg) → Z.of_nat (length pg) ≤ limit) →
  (get_all_current_markets limit max_pages latency w).1 = Ok all_markets →
  Z.of_nat (length all_markets) ≤ Z.max 1 (Z.min max_pages 10) * limit
  ∧ Z.of_nat (length all_markets) ≤ 10 * limit.
Proof.
  intros Hsize Hrun.
  rewrite get_all_current_markets_result in Hrun.
  destruct (page limit 0) as [[first_page|]|e] eqn:Hp0; try done.
  injection Hrun as <-. pose proof (Hsize _ _ Hp0) as Hlen0.
  assert (Hbound : Z.of_nat (length (if fans_out limit first_page
                      then aggregate limit (gathered limit max_pages) first_page
                      else first_page))
                   ≤ Z.max 1 (Z.min max_pages 10) * limit); [|split; [done|nia]].
  destruct (fans_out limit first_page); [|nia].
  rewrite gathered_pages.
  destruct (aggregate_pages limit (py_range 1 (Z.min max_pages 10)) first_page)
    as (ps & pgs & Hsub & Hpgs & ->).
  assert (Hall : Forall (λ pg, Z.of_nat (length pg) ≤ limit) pgs).
  { apply Forall_forall. intros pg [i Hi]%list_elem_of_lookup.
    destruct (Forall2_lookup_r _ _ _ _ _ Hpgs Hi) as (p & _ & Hpage).
    by apply (Hsize p). }
  apply concat_length_bound in Hall.
  apply sublist_length in Hsub. rewrite py_range_length in Hsub.
  rewrite (Forall2_length _ _ _ Hpgs) in Hsub.
  rewrite length_app. nia.
Qed.

(** X13.  A paginated fetch issues at most ten requests, whatever its
    arguments and whatever the server answers, and it writes no file. *)
Theorem fetch_all_is_bounded limit max_pages latency w :
  (length (sent (get_all_current_markets limit max_pages latency w).2)
     ≤ length (sent w) + 10)%nat
  ∧ files (get_all_current_markets limit max_pages latency w).2 = files w.
Proof.
  pose proof (get_markets_raw_files (page_params limit 0) w) as Hfiles.
  destruct (get_markets_fetches_once (page_params limit 0) w) as [Hw _].
  assert (Hsent1 : (length (sent (get_markets (Some (page_params limit 0))
                                     false None w).2)
                    ≤ length (sent w) + 1)%nat).
  { destruct Hw as [->| ->]; [lia|]. simpl. rewrite length_app. simpl. lia. }
  clear Hw.
  destruct (get_markets (Some (page_params limit 0)) false None w)
    as [[[first_page|]|e] w1] eqn:Hrun; simpl in *.
  2,3: unfold get_all_current_markets; rewrite M_bind_run, Hrun; simpl;
       split; [lia|done].
  destruct (fans_out limit first_page) eqn:Hfan.
  - split.
    + rewrite (get_all_current_markets_sent _ max_pages latency _ _ _ Hrun Hfan).
      rewrite length_app, length_fmap.
      unfold page_requests. cbv zeta. rewrite length_fmap, py_range_length. lia.
    + unfold get_all_current_markets. rewrite M_bind_run, Hrun.
      apply andb_true_iff in Hfan as [Hne%negb_true_iff Hfull]. rewrite Hne, Hfull.
      assert (Hf : Forall (co_keeps files)
                ((λ qs, get_markets_co (Some qs) false None) <$> page_requests limit max_pages)).
      { apply Forall_fmap, Forall_forall. intros qs _. apply get_markets_co_keeps_files. }
      set (tasks := _ <$> page_requests limit max_pages) in *. clearbody tasks.
      destruct tasks as [|t tasks]; [done|].
      rewrite M_bind_run.
      pose proof (gather_keeps files latency (t :: tasks) w1 Hf) as Hg.
      destruct (gather latency _ w1) as [[results|e] w2]; simpl in *; congruence.
  - assert (get_all_current_markets limit max_pages latency w = (Ok first_page, w1))
      as ->; [|split; [simpl; lia|done]].
    unfold get_all_current_markets. rewrite M_bind_run, Hrun.
    unfold fans_out in Hfan.
    destruct (Z.of_nat (length first_page) =? 0); [done|].
    by destruct (Z.of_nat (length first_page) =? limit).
Qed.

End PaginationFacts.

(** X14.  What the server answers beyond a short page that is not empty has
    no part in the result: two servers that agree on the pages 0 to [k],
    page [k >= 1] being short and not empty, give the same result, whatever
    the order of completion and the state of the client. *)
Theorem nothing_after_a_short_page {models : Models} (server1 server2 : Platform)
    limit max_pages latency1 latency2 w1 w2 k pg :
  1 ≤ k →
  (∀ p, 0 ≤ p ≤ k →
        page (platform := server1) limit p = page (platform := server2) limit p) →
  page (platform := server1) limit k = Ok (Some pg) →
  0 < Z.of_nat (length pg) < limit →
  (get_all_current_markets (platform := server1) limit max_pages latency1 w1).1
  = (get_all_current_markets (platform := server2) limit max_pages latency2 w2).1.
Proof.
  intros Hk Hsame Hpage Hshort.
  rewrite !get_all_current_markets_result, <- (Hsame 0) by lia.
  destruct (page limit 0) as [[first_page|]|e]; try done.
  destruct (fans_out limit first_page); [|done]. f_equal.
  rewrite !gathered_pages.
  destruct (decide (k < Z.min max_pages 10)) as [Hin|Hout].
  - rewrite (py_range_split 1 k) by lia. rewrite !fmap_app, !fmap_cons.
    rewrite <- (Hsame k), Hpage by lia.
    rewrite (aggregate_cut limit (page (platform := server1) limit <$> _)),
      (aggregate_cut limit (page (platform := server2) limit <$> _)) by done.
    do 2 f_equal. apply list_fmap_ext.
    intros _ p Hp%list_elem_of_lookup_2%elem_of_py_range. apply Hsame. lia.
  - f_equal. apply list_fmap_ext.
    intros _ p Hp%list_elem_of_lookup_2%elem_of_py_range. apply Hsame. lia.
Qed.

(** ** The parse methods *)

Lemma result_bind_Ok {A B} (r : result A) (f : A → result B) (b : B) :
  r ≫= f = Ok b ↔ ∃ a, r = Ok a ∧ f a = Ok b.
Proof.
  destruct r as [a|e]; simpl; split.
  - intros Hf. by exists a.
  - by intros (a' & [= <-] & Hf).
  - done.
  - by intros (a' & [=] & _).
Qed.

Lemma except_None_Some {A} (body : result A) (a : A) :
  except_None body = Some a ↔ body = Ok a.
Proof. destruct body; simpl; split; congruence. Qed.

Lemma from_sum_Ok {A} mk (s : string + A) (a : A) :
  from_sum mk s = Ok a ↔ s = inr a.
Proof. destruct s; simpl; split; congruence. Qed.

(** The loop [for x in xs: ys.append(f(x))] comes through exactly when [f]
    returns for every item; the values are appended in order. *)
Lemma for_append_Ok {A B} (f : A → result B) (xs : list A) (ys0 ys : list B) :
  for_append f xs ys0 = Ok ys
  ↔ ∃ zs, Forall2 (λ x z, f x = Ok z) xs zs ∧ ys = ys0 ++ zs.
Proof.
  revert ys0. induction xs as [|x xs IH]; intros ys0; cbn [for_append].
  - split.
    + intros [= <-]. exists []. split; [constructor|by rewrite app_nil_r].
    + intros (zs & ->%Forall2_nil_inv_l & ->). by rewrite app_nil_r.
  - rewrite result_bind_Ok. split.
    + intros (y & Hy & (zs & Hzs & ->)%IH). exists (y :: zs).
      split; [by constructor|by rewrite <- app_assoc].
    + intros (zs & (y & zs' & Hy & Hzs & ->)%Forall2_cons_inv_l & ->).
      exists y. split; [done|]. apply IH. exists zs'.
      split; [done|by rewrite <- app_assoc].
Qed.

Lemma for_append_pure {A B} (g : A → B) (xs : list A) (ys0 : list B) :
  for_append (λ x, Ok (g x)) xs ys0 = Ok (ys0 ++ (g <$> xs)).
Proof.
  apply for_append_Ok. exists (g <$> xs). split; [|done].
  apply Forall2_fmap_r, Forall_Forall2_diag, Forall_forall. done.
Qed.

Section ParseFacts.
Context {models : Models} {platform : Platform}.

(** The constructor call on one list item, unpacked as keyword arguments:
    the item has to be a JSON object that the constructor accepts. *)
Lemma construct_item_Ok {T} (new : record → string + T) (item : json) (o : T) :
  (a ← py_kwargs item; from_sum ValidationError (new a)) = Ok o
  ↔ ∃ d, item = JDict d ∧ new d = inr o.
Proof.
  rewrite result_bind_Ok. split.
  - intros (a & Ha & Hnew%from_sum_Ok). destruct item; try done.
    injection Ha as ->. eauto.
  - intros (d & -> & Hnew). exists d. split; [done|by apply from_sum_Ok].
Qed.

(** [parse_pydantic_market] returns a market exactly when each of the four
    conversions comes through and the constructor accepts the outcome. *)
Lemma parse_pydantic_market_Some (market_object : record) (m : Market) :
  parse_pydantic_market market_object = Some m
  ↔ ∃ kw1 kw2 kw3 kw4 : gmap string (field ClobReward Tag PolymarketEvent),
      match market_object !! "clobRewards" with
      | Some v =>
          ∃ items cs,
            py_iter v = Ok items
            ∧ Forall2 (λ item c, ∃ d, item = JDict d ∧ new_ClobReward d = inr c)
                items cs
            ∧ kw1 = <["clobRewards" := FClobRewards cs]> (FJson <$> market_object)
      | None => kw1 = FJson <$> market_object
      end
      ∧ match market_object !! "events" with
        | Some v =>
            ∃ items,
              py_iter v = Ok items
              ∧ kw2 = <["events" := FEvents (parse_nested_event <$> items)]> kw1
        | None => kw2 = kw1
        end
      ∧ match market_object !! "outcomePrices" with
        | Some v =>
            ∃ j, py_json_loads v = Ok j ∧ kw3 = <["outcomePrices" := FJson j]> kw2
        | None => kw3 = kw2
        end
      ∧ match market_object !! "clobTokenIds" with
        | Some v =>
            ∃ j, py_json_loads v = Ok j ∧ kw4 = <["clobTokenIds" := FJson j]> kw3
        | None => kw4 = kw3
        end
      ∧ new_Market kw4 = inr m.
Proof.
  unfold parse_pydantic_market. rewrite except_None_Some. cbv zeta. split.
  - intros (kw1 & H1 & (kw2 & H2 & (kw3 & H3 & (kw4 & H4 & H5%from_sum_Ok)
                %result_bind_Ok)%result_bind_Ok)%result_bind_Ok)%result_bind_Ok.
    exists kw1, kw2, kw3, kw4. split_and!; [| | | |done].
    + destruct (market_object !! "clobRewards") as [v|]; [|by injection H1].
      apply result_bind_Ok in H1 as (items & Hitems & H1).
      apply result_bind_Ok in H1 as (cs & Hcs & [= <-]).
      apply for_append_Ok in Hcs as (zs & Hzs & ->).
      exists items, zs. split_and!; [done| |done].
      eapply Forall2_impl; [exact Hzs|]. intros item c. apply construct_item_Ok.
    + destruct (market_object !! "events") as [v|]; [|by injection H2].
      apply result_bind_Ok in H2 as (items & Hitems & H2).
      rewrite for_append_pure in H2. simpl in H2. injection H2 as <-. eauto.
    + destruct (market_object !! "outcomePrices") as [v|]; [|by injection H3].
      apply result_bind_Ok in H3 as (j & Hj & [= <-]). eauto.
    + destruct (market_object !! "clobTokenIds") as [v|]; [|by injection H4].
      apply result_bind_Ok in H4 as (j & Hj & [= <-]). eauto.
  - intros (kw1 & kw2 & kw3 & kw4 & H1 & H2 & H3 & H4 & H5).
    apply result_bind_Ok. exists kw1. split.
    { destruct (market_object !! "clobRewards") as [v|]; [|by subst].
      destruct H1 as (items & cs & Hitems & Hcs & ->).
      apply result_bind_Ok. exists items. split; [done|].
      apply result_bind_Ok. exists cs. split; [|done].
      apply for_append_Ok. exists cs. split; [|done].
      eapply Forall2_impl; [exact Hcs|]. intros item c. apply construct_item_Ok. }
    apply result_bind_Ok. exists kw2. split.
    { destruct (market_object !! "events") as [v|]; [|by subst].
      destruct H2 as (items & Hitems & ->).
      apply result_bind_Ok. exists items. split; [done|].
      by rewrite for_append_pure. }
    apply result_bind_Ok. exists kw3. split.
    { destruct (market_object !! "outcomePrices") as [v|]; [|by subst].
      destruct H3 as (j & Hj & ->). apply result_bind_Ok. by exists j. }
    apply result_bind_Ok. exists kw4. split.
    { destruct (market_object !! "clobTokenIds") as [v|]; [|by subst].
      destruct H4 as (j & Hj & ->). apply result_bind_Ok. by exists j. }
    by apply from_sum_Ok.
Qed.

(** X15.  One malformed field drops the market, whatever the other fields
    hold: [parse_pydantic_market] returns [None] when ["clobRewards"] or
    ["events"] is present and cannot be iterated (a [null], a number), or
    when ["outcomePrices"] or ["clobTokenIds"] is present and is not a
    string that [json.loads] decodes (a list that is already decoded, for
    one). *)
Theorem malformed_field_drops_the_market (market_object : record) v e :
  (market_object !! "clobRewards" = Some v ∧ py_iter v = Raise e)
  ∨ (market_object !! "events" = Some v ∧ py_iter v = Raise e)
  ∨ (market_object !! "outcomePrices" = Some v ∧ py_json_loads v = Raise e)
  ∨ (market_object !! "clobTokenIds" = Some v ∧ py_json_loads v = Raise e) →
  parse_pydantic_market market_object = None.
Proof.
  intros Hbad.
  destruct (parse_pydantic_market market_object) as [m|] eqn:Hparse; [|done].
  apply parse_pydantic_market_Some in Hparse
    as (kw1 & kw2 & kw3 & kw4 & H1 & H2 & H3 & H4 & _).
  destruct Hbad as [[Hk Hv]|[[Hk Hv]|[[Hk Hv]|[Hk Hv]]]]; rewrite Hk in *.
  - destruct H1 as (items & cs & Hitems & _). congruence.
  - destruct H2 as (items & Hitems & _). congruence.
  - destruct H3 as (j & Hj & _). congruence.
  - destruct H4 as (j & Hj & _). congruence.
Qed.

(** X16.  One bad reward drops the market: when an item of ["clobRewards"]
    is not a JSON object, or is one the [ClobReward] constructor rejects,
    [parse_pydantic_market] returns [None]. *)
Theorem bad_clob_reward_drops_the_market (market_object : record) v items item :
  market_object !! "clobRewards" = Some v →
  py_iter v = Ok items →
  item ∈ items →
  (∀ d, item = JDict d → ∃ err, new_ClobReward d = inl err) →
  parse_pydantic_market market_object = None.
Proof.
  intros Hk Hv Hitem Hbad.
  destruct (parse_pydantic_market market_object) as [m|] eqn:Hparse; [|done].
  apply parse_pydantic_market_Some in Hparse
    as (kw1 & kw2 & kw3 & kw4 & H1 & _).
  rewrite Hk in H1. destruct H1 as (items' & cs & Hitems & Hcs & _).
  assert (items' = items) as -> by congruence.
  apply list_elem_of_lookup in Hitem as [i Hi].
  destruct (Forall2_lookup_l _ _ _ _ _ Hcs Hi) as (c & _ & d & -> & Hnew).
  destruct (Hbad d eq_refl) as [err Herr]. congruence.
Qed.

(** X17.  An event that does not parse does not drop the market: for a
    market with an ["events"] list (and none of the other three special
    fields) the [Market] constructor is called with, in place of the list,
    what [parse_nested_event] returned for each item, [None] included, and
    the market is what the constructor makes of it. *)
Theorem unparsable_event_does_not_drop_the_market (market_object : record) items :
  market_object !! "clobRewards" = None →
  market_object !! "outcomePrices" = None →
  market_object !! "clobTokenIds" = None →
  market_object !! "events" = Some (JList items) →
  parse_pydantic_market market_object
  = match new_Market (<["events" := FEvents (parse_nested_event <$> items)]>
                        (FJson <$> market_object)) with
    | inr m => Some m
    | inl _ => None
    end.
Proof.
  intros Hc Hp Ht He.
  assert (Hv : py_iter (JList items) = Ok items) by reflexivity.
  destruct (new_Market _) as [err|m] eqn:Hnew.
  - destruct (parse_pydantic_market market_object) as [m|] eqn:Hparse; [|done].
    apply parse_pydantic_market_Some in Hparse
      as (kw1 & kw2 & kw3 & kw4 & H1 & H2 & H3 & H4 & H5).
    rewrite Hc in H1. rewrite He in H2. rewrite Hp in H3. rewrite Ht in H4.
    destruct H2 as (items' & Hitems & ->). subst.
    assert (items' = items) as -> by congruence. congruence.
  - apply parse_pydantic_market_Some.
    eexists _, _, _, _. rewrite Hc, Hp, Ht, He.
    split_and!; [reflexivity| |reflexivity|reflexivity|exact Hnew].
    exists items. split; [done|reflexivity].
Qed.

(** X18.  The other fields of a market reach the constructor as they came:
    when [parse_pydantic_market] returns a market, the constructor was
    called with the keys of the record, and under every key but the four
    special ones with the decoded JSON of the record. *)
Theorem other_fields_reach_the_constructor (market_object : record) m :
  parse_pydantic_market market_object = Some m →
  ∃ kw,
    new_Market kw = inr m
    ∧ dom kw = dom market_object
    ∧ ∀ k, k ≠ "clobRewards" → k ≠ "events" → k ≠ "outcomePrices" →
           k ≠ "clobTokenIds" →
           kw !! k = FJson <$> market_object !! k.
Proof.
  intros (kw1 & kw2 & kw3 & kw4 & H1 & H2 & H3 & H4 & H5)%parse_pydantic_market_Some.
  exists kw4. split; [done|].
  assert (Hd0 : dom (FJson <$> market_object
                     : gmap string (field ClobReward Tag PolymarketEvent))
                = dom market_object) by apply dom_fmap_L.
  assert (Hstep : ∀ (kw kw' : gmap string (field ClobReward Tag PolymarketEvent))
                    key x,
            dom kw = dom market_object →
            is_Some (market_object !! key) →
            kw' = <[key := x]> kw →
            dom kw' = dom market_object
            ∧ ∀ k, k ≠ key → kw' !! k = kw !! k).
  { intros kw kw' key x Hd Hin ->. split.
    - rewrite dom_insert_lookup_L; [done|].
      apply elem_of_dom. rewrite Hd. by apply elem_of_dom.
    - intros k Hk. by rewrite lookup_insert_ne. }
  assert (S1 : dom kw1 = dom market_object
               ∧ ∀ k, k ≠ "clobRewards" → kw1 !! k = (FJson <$> market_object) !! k).
  { destruct (market_object !! "clobRewards") as [v|] eqn:Hk; [|by subst].
    destruct H1 as (items & cs & _ & _ & Hkw). by eapply Hstep. }
  destruct S1 as [Hd1 Hl1].
  assert (S2 : dom kw2 = dom market_object ∧ ∀ k, k ≠ "events" → kw2 !! k = kw1 !! k).
  { destruct (market_object !! "events") as [v|] eqn:Hk; [|by subst].
    destruct H2 as (items & _ & Hkw). by eapply Hstep. }
  destruct S2 as [Hd2 Hl2].
  assert (S3 : dom kw3 = dom market_object
               ∧ ∀ k, k ≠ "outcomePrices" → kw3 !! k = kw2 !! k).
  { destruct (market_object !! "outcomePrices") as [v|] eqn:Hk; [|by subst].
    destruct H3 as (j & _ & Hkw). by eapply Hstep. }
  destruct S3 as [Hd3 Hl3].
  assert (S4 : dom kw4 = dom market_object
               ∧ ∀ k, k ≠ "clobTokenIds" → kw4 !! k = kw3 !! k).
  { destruct (market_object !! "clobTokenIds") as [v|] eqn:Hk; [|by subst].
    destruct H4 as (j & _ & Hkw). by eapply Hstep. }
  destruct S4 as [Hd4 Hl4].
  split; [done|]. intros k Hk1 Hk2 Hk3 Hk4.
  rewrite Hl4, Hl3, Hl2, Hl1, lookup_fmap by done. done.
Qed.

(** X19.  The tags of an event are all or nothing: [parse_pydantic_event]
    returns an event exactly when every item of ["tags"], if the key is
    there, is a JSON object the [Tag] constructor accepts, and the
    [PolymarketEvent] constructor accepts the record with the tags, in
    order, in place of their JSON.  [parse_nested_event] does the same on a
    JSON object. *)
Theorem event_tags_are_all_or_nothing (event_object : record) e :
  (parse_pydantic_event event_object = Some e
   ↔ ∃ kw,
       new_PolymarketEvent kw = inr e
       ∧ match event_object !! "tags" with
         | Some v =>
             ∃ items tags,
               py_iter v = Ok items
               ∧ Forall2 (λ item tag, ∃ d, item = JDict d ∧ new_Tag d = inr tag)
                   items tags
               ∧ kw = <["tags" := FTags tags]> (FJson <$> event_object)
         | None => kw = FJson <$> event_object
         end)
  ∧ parse_nested_event (JDict event_object) = parse_pydantic_event event_object.
Proof.
  split; [|reflexivity].
  unfold parse_pydantic_event. rewrite except_None_Some. cbv zeta. split.
  - intros (kw & Hkw & Hnew%from_sum_Ok)%result_bind_Ok.
    exists kw. split; [done|].
    destruct (event_object !! "tags") as [v|]; [|by injection Hkw].
    apply result_bind_Ok in Hkw as (items & Hitems & Hkw).
    apply result_bind_Ok in Hkw as (tags & Htags & [= <-]).
    apply for_append_Ok in Htags as (zs & Hzs & ->).
    exists items, zs. split_and!; [done| |done].
    eapply Forall2_impl; [exact Hzs|]. intros item tag. apply construct_item_Ok.
  - intros (kw & Hnew & Hkw).
    apply result_bind_Ok. exists kw. split; [|by apply from_sum_Ok].
    destruct (event_object !! "tags") as [v|]; [|by subst].
    destruct Hkw as (items & tags & Hitems & Htags & ->).
    apply result_bind_Ok. exists items. split; [done|].
    apply result_bind_Ok. exists tags. split; [|done].
    apply for_append_Ok. exists tags. split; [|done].
    eapply Forall2_impl; [exact Htags|]. intros item tag. apply construct_item_Ok.
Qed.

End ParseFacts.

(** ** The further properties at work on the concrete client *)


Lemma without_aiohttp_nothing_is_fetched_witness :
  let _ := Demo.models in
  let _ := Demo.offline in
  let _ := Demo.documents in
  let e := ImportError "aiohttp is required. Install with: pip install aiohttp" in
  get_all_current_markets 5 10 Demo.fifo initial_world = (Raise e, initial_world)
  ∧ get_market "253123" initial_world = (Raise e, initial_world).
Proof.
  intros md pf doc e.
  destruct (without_aiohttp_nothing_is_fetched (models := md) (platform := pf)
              (documents := doc) initial_world eq_refl)
    as (_ & _ & _ & _ & Hall & Hone).
  split; [apply Hall|apply Hone].
Defined.

Lemma every_call_issues_one_request_witness :
  let _ := Demo.models in
  let _ := Demo.down in
  issues (get_markets None true None) initial_world (Request gamma_markets_endpoint [])
  ∧ (get_markets None true None initial_world).1
    = Raise (Exception "Gamma API error: HTTP 404")
  ∧ _session (get_markets None true None initial_world).2
    = Some {| closed := false |}.
Proof.
  intros md pf.
  destruct (every_call_issues_one_request (models := md) (platform := pf)
              None true None initial_world eq_refl eq_refl) as (Hreq & Hopen & _).
  split; [exact Hreq|]. split; [vm_compute; reflexivity|exact Hopen].
Defined.

Lemma only_the_dump_file_is_written_witness :
  let _ := Demo.models in
  let _ := Demo.mixed in
  let w := World None [] {[ "notes.txt" := [] ]} in
  files (get_markets None false (Some "markets.json") w).2 !! "notes.txt" = Some []
  ∧ files (get_markets None false None w).2 = {[ "notes.txt" := [] ]}.
Proof.
  intros md pf w.
  destruct (only_the_dump_file_is_written (models := md) (platform := pf)
              None false (Some "markets.json") w) as (Hother & _).
  destruct (only_the_dump_file_is_written (models := md) (platform := pf)
              None false None w) as (_ & Hnone & _).
  split.
  - rewrite Hother; [reflexivity|discriminate].
  - rewrite Hnone; [reflexivity|]. vm_compute. discriminate.
Defined.

Lemma failed_event_parses_are_dropped_witness :
  let _ := Demo.models in
  let _ := Demo.mixed in
  issues (get_events None true None) initial_world (Request gamma_events_endpoint [])
  ∧ ∃ events,
      (get_events None true None initial_world).1 = Ok (Some events)
      ∧ (length events ≤ 3)%nat.
Proof.
  intros md pf. split; [vm_compute; reflexivity|].
  destruct (failed_event_parses_are_dropped (models := md) (platform := pf)
              None None initial_world
              [Demo.market 1; {[ "slug" := JStr "no-id" ]}; Demo.market 3])
    as (events & Hrun & _ & _ & _ & Hlen);
    [vm_compute; reflexivity|vm_compute; reflexivity|].
  exists events. split; [exact Hrun|exact Hlen].
Defined.

Lemma get_market_ignores_the_status_witness :
  let _ := Demo.mixed in
  let _ := Demo.documents in
  (get_market "253123" initial_world).1
  = Ok (JDict {[ "error" := JStr "not found" ]}).
Proof.
  intros pf doc.
  rewrite (proj2 (get_market_ignores_the_status (platform := pf) (documents := doc)
                    "253123" initial_world)
             404 (JDict {[ "error" := JStr "not found" ]}) eq_refl eq_refl).
  reflexivity.
Defined.

Lemma non_positive_page_size_never_fans_out_witness :
  let _ := Demo.models in
  let _ := Demo.negative in
  let w1 := issued (Request gamma_markets_endpoint (page_params (-1) 0)) initial_world in
  get_markets (Some (page_params (-1) 0)) false None initial_world
    = (Ok (Some (Demo.raw [1; 2; 3])), w1)
  ∧ get_all_current_markets (-1) 10 Demo.fifo initial_world
    = (Ok (Demo.raw [1; 2; 3]), w1).
Proof.
  intros md pf w1.
  assert (Hrun : get_markets (Some (page_params (-1) 0)) false None initial_world
                 = (Ok (Some (Demo.raw [1; 2; 3])), w1)) by (vm_compute; reflexivity).
  split; [exact Hrun|].
  apply (non_positive_page_size_never_fans_out (models := md) (platform := pf)
           (-1) 10 Demo.fifo initial_world w1 (Demo.raw [1; 2; 3]));
    [lia|exact Hrun].
Defined.

Lemma full_pages_are_capped_witness :
  let _ := Demo.models in
  let _ := Demo.steady in
  (get_all_current_markets 2 1000 Demo.lifo initial_world).1
  = Ok (concat ((λ _, Demo.raw [7; 8]) <$> py_range 0 10)).
Proof.
  intros md pf.
  apply (full_pages_are_capped (models := md) (platform := pf)
           2 1000 Demo.lifo initial_world (λ _, Demo.raw [7; 8])); [lia|].
  intros p _. split; vm_compute; reflexivity.
Defined.

Lemma result_is_bounded_witness :
  let _ := Demo.models in
  let _ := Demo.steady in
  ∃ all_markets,
    (get_all_current_markets 2 1000 Demo.lifo initial_world).1 = Ok all_markets
    ∧ Z.of_nat (length all_markets) ≤ 20.
Proof.
  intros md pf. eexists. split; [vm_compute; reflexivity|].
  eapply (result_is_bounded (models := md) (platform := pf)
            2 1000 Demo.lifo initial_world); [|vm_compute; reflexivity].
  intros p pg Hp. vm_compute in Hp. injection Hp as <-. vm_compute. discriminate.
Defined.

Lemma nothing_after_a_short_page_witness :
  let _ := Demo.models in
  page (platform := Demo.before) 2 2 ≠ page (platform := Demo.after) 2 2
  ∧ (get_all_current_markets (platform := Demo.before) 2 10 Demo.fifo initial_world).1
    = (get_all_current_markets (platform := Demo.after) 2 10 Demo.lifo initial_world).1.
Proof.
  intros md. split; [vm_compute; discriminate|].
  apply (nothing_after_a_short_page (models := md) Demo.before Demo.after
           2 10 Demo.fifo Demo.lifo initial_world initial_world 1 (Demo.raw [2]));
    [lia| |vm_compute; reflexivity|split; reflexivity].
  intros p Hp. assert (p = 0 ∨ p = 1) as [-> | ->] by lia; vm_compute; reflexivity.
Defined.

Lemma malformed_field_drops_the_market_witness :
  let _ := Demo.models in
  let _ := Demo.mixed in
  parse_pydantic_market (delete "outcomePrices" Demo.decoded_prices) = Some 1
  ∧ parse_pydantic_market Demo.decoded_prices = None.
Proof.
  intros md pf. split; [vm_compute; reflexivity|].
  apply (malformed_field_drops_the_market (models := md) (platform := pf)
           Demo.decoded_prices (JList [JStr "0.5"; JStr "0.5"])
           (TypeError "the JSON object must be str, bytes or bytearray")).
  right. right. left. split; vm_compute; reflexivity.
Defined.

Lemma bad_clob_reward_drops_the_market_witness :
  let _ := Demo.models in
  let _ := Demo.mixed in
  parse_pydantic_market Demo.odd_reward = None.
Proof.
  intros md pf.
  apply (bad_clob_reward_drops_the_market (models := md) (platform := pf)
           Demo.odd_reward (JList [JDict ∅; JInt 7]) [JDict ∅; JInt 7] (JInt 7));
    [vm_compute; reflexivity|reflexivity|set_solver|discriminate].
Defined.

Lemma unparsable_event_does_not_drop_the_market_witness :
  let _ := Demo.models in
  let _ := Demo.mixed in
  parse_nested_event (JInt 7) = None
  ∧ parse_pydantic_market Demo.odd_event = Some 3.
Proof.
  intros md pf. split; [reflexivity|].
  rewrite (unparsable_event_does_not_drop_the_market (models := md) (platform := pf)
             Demo.odd_event [JInt 7; JDict ∅]);
    vm_compute; reflexivity.
Defined.

Lemma other_fields_reach_the_constructor_witness :
  let _ := Demo.models in
  let _ := Demo.mixed in
  parse_pydantic_market Demo.odd_event = Some 3
  ∧ ∃ kw, new_Market kw = inr 3
          ∧ dom kw = dom Demo.odd_event
          ∧ kw !! "id" = Some (FJson (JInt 3)).
Proof.
  intros md pf.
  assert (Hparse : parse_pydantic_market Demo.odd_event = Some 3)
    by (vm_compute; reflexivity).
  split; [exact Hparse|].
  destruct (other_fields_reach_the_constructor (models := md) (platform := pf)
              Demo.odd_event 3 Hparse) as (kw & Hnew & Hdom & Hother).
  exists kw. split; [exact Hnew|]. split; [exact Hdom|].
  rewrite Hother by discriminate. reflexivity.
Defined.
